(** * Course quality report (cms/djangoapps/contentstore/api/views/course_quality.py)

    A shallow embedding of [CourseQualityView] and of the library routines
    it calls, followed by the properties of the report.

    Numbers are exact rationals ([Q]): block counts are integers and video
    durations are read as the rationals they denote.  The results of
    [np.around] are integral and are kept in [Z]. *)

From Stdlib Require Import QArith Qround Qabs Lqa ZArith Lia List Ascii String.
From Stdlib Require Import Sorting.Mergesort Sorting.Sorted Sorting.Permutation Orders.
From stdpp Require Import gmap strings list fin_maps.

Local Open Scope Q_scope.

#[local] Set Warnings "-clear-no-such-hyp".

(** ** numpy and scipy routines used by [_stats_dict] *)

Module QOrder <: TotalLeBool.
Definition t := Q.
Definition leb (x y : Q) : bool := Qle_bool x y.
Lemma leb_total : forall x y, leb x y = true \/ leb y x = true.
Proof.
  intros x y. unfold leb. rewrite !Qle_bool_iff.
  destruct (Qlt_le_dec x y) as [H|H]; [left; apply Qlt_le_weak, H | right; exact H].
Qed.
End QOrder.

Module QSort := Sort QOrder.

Module Numpy.

(** [np.sum] over a one-dimensional array. *)
Definition np_sum (a : list Q) : Q := fold_right Qplus 0 a.

(** [np.mean(a)]: the sum divided by the number of elements. *)
Definition np_mean (a : list Q) : Q := np_sum a / inject_Z (Z.of_nat (length a)).

(** [np.around(x)] with [decimals=0] is [rint]: the nearest integer, a value
    exactly halfway between two integers going to the even one. *)
Definition np_around (x : Q) : Z :=
  let f := Qfloor x in
  match Qcompare (x - inject_Z f) (1 # 2) with
  | Lt => f
  | Gt => (f + 1)%Z
  | Eq => if Z.even f then f else (f + 1)%Z
  end.

(** [np.sort]. *)
Definition np_sort (a : list Q) : list Q := QSort.sort a.

(** [np.median(a)]: with [sz = len(a)] and [index = sz // 2], the mean of
    [part[index-1:index+1]] when [sz] is even and of [part[index:index+1]]
    when it is odd, [part] being ordered around those positions. *)
Definition np_median (a : list Q) : Q :=
  let part := np_sort a in
  let sz := length a in
  let index := (sz / 2)%nat in
  let indexer :=
    if Nat.even sz then firstn 2 (skipn (index - 1) part)
    else firstn 1 (skipn index part) in
  np_mean indexer.

(** [np.unique(a)]: the sorted array with the first element of every run of
    equal values kept. *)
Fixpoint uniq_from (prev : Q) (aux : list Q) : list Q :=
  match aux with
  | [] => []
  | y :: aux' => if Qeq_bool prev y then uniq_from prev aux' else y :: uniq_from y aux'
  end.

Definition np_unique (a : list Q) : list Q :=
  match np_sort a with
  | [] => []
  | x :: aux => x :: uniq_from x aux
  end.

End Numpy.

Module Scipy.
Import Numpy.

(** [np.sum(a == score)]. *)
Definition count_eq (score : Q) (a : list Q) : nat :=
  length (List.filter (Qeq_bool score) a).

(** [stats.mode(a, axis=None)]: every unique value, in increasing order, is
    counted; a value replaces the current mode only when its count is
    strictly larger ([np.where(counts > oldcounts, score, oldmostfreq)]).
    The pair is [(mostfrequent, oldcounts)]. *)
Definition mode_step (a : list Q) (acc : Q * nat) (score : Q) : Q * nat :=
  let counts := count_eq score a in
  if (snd acc <? counts)%nat then (score, counts) else acc.

Definition mode (a : list Q) : Q * nat :=
  fold_left (mode_step a) (np_unique a) (0, 0%nat).

End Scipy.

(** ** [_stats_dict] *)

Record StatsSummary := mkStats {
  st_min : option Q;
  st_max : option Q;
  st_mean : option Z;
  st_median : option Z;
  st_mode : option Q
}.

(** Python's [min(data)] and [max(data)]: the first smallest (largest)
    element. *)
Fixpoint py_min_from (m : Q) (data : list Q) : Q :=
  match data with
  | [] => m
  | x :: data' => py_min_from (if Qle_bool m x then m else x) data'
  end.

Fixpoint py_max_from (m : Q) (data : list Q) : Q :=
  match data with
  | [] => m
  | x :: data' => py_max_from (if Qle_bool x m then m else x) data'
  end.

Definition _stats_dict (data : list Q) : StatsSummary :=
  match data with
  | [] => mkStats None None None None None
  | x :: data' =>
      mkStats (Some (py_min_from x data'))
              (Some (py_max_from x data'))
              (Some (Numpy.np_around (Numpy.np_mean data)))
              (Some (Numpy.np_around (Numpy.np_median data)))
              (Some (fst (Scipy.mode data)))
  end.


(** Two summaries with the same values: the rational fields equal as
    numbers, the rounded ones identical. *)
Definition option_Qeq (a b : option Q) : Prop :=
  match a, b with
  | Some x, Some y => x == y
  | None, None => True
  | _, _ => False
  end.

Definition stats_equiv (s t : StatsSummary) : Prop :=
  option_Qeq (st_min s) (st_min t) /\ option_Qeq (st_max s) (st_max t)
  /\ st_mean s = st_mean t /\ st_median s = st_median t
  /\ option_Qeq (st_mode s) (st_mode t).

(** ** Data model *)

(** A usage key (the [location] of a block): block type and block id inside
    one course. *)
Record UsageKey := mkUsageKey {
  block_type : string;
  block_id : string
}.

Global Instance UsageKey_eq_dec : EqDecision UsageKey.
Proof. solve_decision. Defined.

Global Instance UsageKey_countable : Countable UsageKey.
Proof.
  refine (inj_countable' (fun k => (block_type k, block_id k))
                         (fun p => mkUsageKey (fst p) (snd p)) _).
  intros []; reflexivity.
Defined.

Definition CourseKey := string.
Definition User := string.

(** A block of the course tree as the view reads it.  [children] is [None]
    for a block without a [children] attribute; otherwise it lists, in
    order, the usage keys of [parent.children], each given as the block
    that [store.get_item] returns for it. *)
#[warnings="-register-all"] Inductive XBlock := Block {
  location : UsageKey;
  children : option (list XBlock);
  visible_to_staff_only : bool;
  hide_from_toc : bool;
  graded : bool;
  highlights : list string;
  edx_video_id : string;
  course_id : CourseKey;
  self_paced : bool;
  highlights_enabled_for_messaging : bool
}.

(** A record of the video metadata service. *)
Record Video := mkVideo {
  val_edx_video_id : string;
  duration : Q
}.

Record Request := mkRequest {
  user : User;
  query_params : gmap string string
}.

(** The collaborators of the view: key parsing, the access-control check,
    the modulestore (its courses) and the video metadata service. *)
Record Env := mkEnv {
  from_string : string -> option CourseKey;
  has_course_author_access : User -> CourseKey -> bool;
  courses : CourseKey -> option XBlock;
  get_videos_for_course : CourseKey -> list Video
}.

Record UnitInfo := mkUnitInfo {
  num_leaf_blocks : nat;
  leaf_block_types : gset string
}.

Record SectionsQuality := mkSectionsQuality {
  sections_total_number : nat;
  sections_total_visible : nat;
  sections_number_with_highlights : nat;
  sections_highlights_enabled : bool
}.

Record SubsectionsQuality := mkSubsectionsQuality {
  subsections_total_visible : nat;
  subsections_num_with_one_block_type : nat;
  subsections_num_block_types : StatsSummary
}.

Record UnitsQuality := mkUnitsQuality {
  units_total_visible : nat;
  units_num_blocks : StatsSummary
}.

Record VideosQuality := mkVideosQuality {
  videos_total_number : nat;
  videos_num_mobile_encoded : nat;
  videos_num_with_val_id : nat;
  videos_durations : StatsSummary
}.

(** The response dictionary: a key is present when its field is [Some]. *)
Record QualityReport := mkQualityReport {
  is_self_paced : bool;
  sections : option SectionsQuality;
  subsections : option SubsectionsQuality;
  units : option UnitsQuality;
  videos : option VideosQuality
}.

Inductive Response :=
| ErrorResponse (status_code : nat) (developer_message error_code : string)
| OkResponse (data : QualityReport).

Definition HTTP_403_FORBIDDEN : nat := 403.

Definition make_error_response (status_code : nat) (developer_message error_code : string)
  : Response := ErrorResponse status_code developer_message error_code.

(** ** Effects of [get]

    What [get] does to its collaborators is kept in a log, in program
    order; an exception ends the request. *)

Inductive ReportPart := PartSections | PartSubsections | PartUnits | PartVideos.

Inductive Effect :=
| Modulestore
| BulkOperations (course_key : CourseKey)
| GetCourse (course_key : CourseKey) (depth : option nat)
| TreeTraversal (part : ReportPart)
| GetItems (course_key : CourseKey) (category : string)
| GetVideosForCourse (course_key : CourseKey).

Inductive Exception := InvalidKeyError | AttributeError.

Definition M (A : Type) : Type := (list Effect * (Exception + A))%type.

Global Instance M_ret : MRet M := fun A a => ([], inr a).

Global Instance M_bind : MBind M := fun A B f m =>
  match m with
  | (log, inl e) => (log, inl e)
  | (log, inr a) => let '(log', r) := f a in (log ++ log', r)
  end.

Definition tell (e : Effect) : M unit := ([e], inr tt).
Definition raise {A : Type} (e : Exception) : M A := ([], inl e).

Definition log_of {A : Type} (m : M A) : list Effect := fst m.
Definition outcome {A : Type} (m : M A) : Exception + A := snd m.

(** ** Tree accessors *)

Definition _get_children (parent : XBlock) : list XBlock :=
  match children parent with
  | None => []
  | Some c => c
  end.

Definition visible (s : XBlock) : bool :=
  negb (visible_to_staff_only s) && negb (hide_from_toc s).

(** [store.get_item(child_usage_key)] for every key of [parent.children]:
    the blocks listed in [children], then the visible ones among them. *)
Definition _get_all_children (parent : XBlock) : list XBlock * list XBlock :=
  let children := _get_children parent in
  let visible_children := List.filter visible children in
  (children, visible_children).

Definition _get_visible_children (parent : XBlock) : list XBlock :=
  snd (_get_all_children parent).

Definition _get_sections (course : XBlock) : list XBlock * list XBlock :=
  _get_all_children course.

(** Modelled from the spec: [traverse_pre_order], defined in
    openedx/core/lib/graph_traversals.py and only imported by
    course_quality.py.  The pre-order traversal of the subtree rooted at
    [start_node] (the root included), descending only into the children
    that [get_children] gives, here the children of the block that pass
    [keep], and yielding the nodes that satisfy [filter_func]. *)
Fixpoint traverse_pre_order (keep filter_func : XBlock -> bool) (start_node : XBlock)
  {struct start_node} : list XBlock :=
  (if filter_func start_node then [start_node] else []) ++
  match children start_node with
  | None => []
  | Some c =>
      (fix descend (l : list XBlock) : list XBlock :=
         match l with
         | [] => []
         | child :: l' =>
             if keep child then traverse_pre_order keep filter_func child ++ descend l'
             else descend l'
         end) c
  end.

Definition _get_leaf_blocks (unit : XBlock) : list XBlock :=
  traverse_pre_order visible (fun b => (length (_get_children b) =? 0)%nat) unit.

(** Every block of the tree rooted at [b], in pre-order. *)
Fixpoint all_blocks (b : XBlock) {struct b} : list XBlock :=
  b :: match children b with
       | None => []
       | Some c =>
           (fix descend (l : list XBlock) : list XBlock :=
              match l with
              | [] => []
              | child :: l' => all_blocks child ++ descend l'
              end) c
       end.

(** Modelled from the spec: [modulestore().get_items(course_key,
    qualifiers={'category': c})]; the modulestore is defined in another
    package.  A scan of the whole course for the blocks of the given type,
    with no visibility filtering. *)
Definition get_items (env : Env) (course_key : CourseKey) (category : string) : list XBlock :=
  match courses env course_key with
  | None => []
  | Some course =>
      List.filter (fun b => bool_decide (block_type (location b) = category)) (all_blocks course)
  end.

Definition of_nat (n : nat) : Q := inject_Z (Z.of_nat n).

(** The values of a dictionary ([itervalues]). *)
Definition itervalues {K : Type} `{Countable K} {V : Type} (d : gmap K V) : list V :=
  (map_to_list d).*2.

(** ** The view *)

Section CourseQualityView.

(** [get_bool_param] is defined in views/utils.py; the view is written over
    any such function. *)
Variable get_bool_param : Request -> string -> bool -> bool.

Variable env : Env.

Definition _required_course_depth (request : Request) (all_requested : bool) : option nat :=
  if get_bool_param request "units" all_requested then None
  else if get_bool_param request "subsections" all_requested then None
  else if get_bool_param request "sections" all_requested then Some 1%nat
  else Some 0%nat.

Definition _sections_quality (course : XBlock) : SectionsQuality :=
  let '(sections, visible_sections) := _get_sections course in
  let sections_with_highlights :=
    List.filter (fun s => negb (length (highlights s) =? 0)%nat) visible_sections in
  {| sections_total_number := length sections;
     sections_total_visible := length visible_sections;
     sections_number_with_highlights := length sections_with_highlights;
     sections_highlights_enabled := highlights_enabled_for_messaging course |}.

(** The body of the loop over [visible_units]. *)
Definition add_unit (unit_dict : gmap UsageKey UnitInfo) (unit : XBlock)
  : gmap UsageKey UnitInfo :=
  let leaf_blocks := _get_leaf_blocks unit in
  <[location unit :=
      {| num_leaf_blocks := length leaf_blocks;
         leaf_block_types :=
           list_to_set (List.map (fun block => block_type (location block)) leaf_blocks) |}]>
    unit_dict.

(** The body of the loop over [visible_subsections]. *)
Definition add_subsection (subsection_dict : gmap UsageKey (gmap UsageKey UnitInfo))
  (subsection : XBlock) : gmap UsageKey (gmap UsageKey UnitInfo) :=
  let visible_units := _get_visible_children subsection in
  let unit_dict := fold_left add_unit visible_units ∅ in
  <[location subsection := unit_dict]> subsection_dict.

(** The list the loop of line 193 runs over, for one section. *)
Definition visible_subsections_of (request : Request) (section : XBlock) : list XBlock :=
  let visible_subsections := _get_visible_children section in
  if get_bool_param request "exclude_graded" false
  then List.filter (fun s => negb (graded s)) visible_subsections
  else visible_subsections.

(** The body of the loop over [visible_sections]. *)
Definition add_section (request : Request)
  (subsection_dict : gmap UsageKey (gmap UsageKey UnitInfo)) (section : XBlock)
  : gmap UsageKey (gmap UsageKey UnitInfo) :=
  fold_left add_subsection (visible_subsections_of request section) subsection_dict.

Definition _get_subsections_and_units (course : XBlock) (request : Request)
  : gmap UsageKey (gmap UsageKey UnitInfo) :=
  let '(_, visible_sections) := _get_sections course in
  fold_left (add_section request) visible_sections ∅.

(** The size of the union of the [leaf_block_types] of every unit of the
    subsection. *)
Definition num_block_types (unit_dict : gmap UsageKey UnitInfo) : nat :=
  size (⋃ (leaf_block_types <$> itervalues unit_dict)).

Definition num_block_types_per_subsection_dict (course : XBlock) (request : Request)
  : gmap UsageKey nat :=
  let subsection_unit_dict := _get_subsections_and_units course request in
  num_block_types <$> subsection_unit_dict.

Definition _subsections_quality (course : XBlock) (request : Request) : SubsectionsQuality :=
  let num_block_types_per_subsection_dict :=
    num_block_types_per_subsection_dict course request in
  {| subsections_total_visible := size num_block_types_per_subsection_dict;
     subsections_num_with_one_block_type :=
       length (List.filter (fun s => (s =? 1)%nat)
                 (itervalues num_block_types_per_subsection_dict));
     subsections_num_block_types :=
       _stats_dict (of_nat <$> itervalues num_block_types_per_subsection_dict) |}.

Definition _units_quality (course : XBlock) (request : Request) : UnitsQuality :=
  let subsection_unit_dict := _get_subsections_and_units course request in
  let num_leaf_blocks_per_unit : list nat :=
    unit_dict ← itervalues subsection_unit_dict;
    unit_info ← itervalues unit_dict;
    [num_leaf_blocks unit_info] in
  {| units_total_visible := length num_leaf_blocks_per_unit;
     units_num_blocks := _stats_dict (of_nat <$> num_leaf_blocks_per_unit) |}.

Definition _videos_quality (course : XBlock) : VideosQuality :=
  let video_blocks_in_course := get_items env (course_id course) "video" in
  let videos_in_val := get_videos_for_course env (course_id course) in
  let video_durations := List.map duration videos_in_val in
  {| videos_total_number := length video_blocks_in_course;
     videos_num_mobile_encoded := length videos_in_val;
     videos_num_with_val_id :=
       length (List.filter (fun v => negb (String.eqb (edx_video_id v) EmptyString))
                 video_blocks_in_course);
     videos_durations := _stats_dict video_durations |}.

(** [response.update(key=value)] under a condition. *)
Definition update_if {A : Type} (cond : bool) (effects : list Effect) (value : A)
  : M (option A) :=
  if cond then (effects, inr (Some value)) else mret None.

Definition get (request : Request) (course_id_ : string) : M Response :=
  let all_requested := get_bool_param request "all" false in
  course_key ← match from_string env course_id_ with
               | Some k => mret k
               | None => raise InvalidKeyError
               end;
  if negb (has_course_author_access env (user request) course_key) then
    mret (make_error_response HTTP_403_FORBIDDEN
            "The user requested does not have the required permissions."
            "user_mismatch")
  else
    _ ← tell Modulestore;
    _ ← tell (BulkOperations course_key);
    _ ← tell (GetCourse course_key (_required_course_depth request all_requested));
    match courses env course_key with
    | None => raise AttributeError
    | Some course =>
        sections_ ← update_if (get_bool_param request "sections" all_requested)
                      [TreeTraversal PartSections] (_sections_quality course);
        subsections_ ← update_if (get_bool_param request "subsections" all_requested)
                         [TreeTraversal PartSubsections] (_subsections_quality course request);
        units_ ← update_if (get_bool_param request "units" all_requested)
                   [TreeTraversal PartUnits] (_units_quality course request);
        videos_ ← update_if (get_bool_param request "videos" all_requested)
                    [Modulestore; GetItems (course_id course) "video";
                     GetVideosForCourse (course_id course)]
                    (_videos_quality course);
        mret (OkResponse {| is_self_paced := self_paced course;
                            sections := sections_;
                            subsections := subsections_;
                            units := units_;
                            videos := videos_ |})
    end.

(** The subsections that the loops of [_get_subsections_and_units] run
    over, in order: for every visible section, its visible subsections,
    less the graded ones when [exclude_graded] is set. *)
Definition taken_subsections (course : XBlock) (request : Request) : list XBlock :=
  List.concat (List.map (visible_subsections_of request) (snd (_get_sections course))).


(** The depth policy as a table. *)
Definition depth_policy (units_ subsections_ sections_ : bool) : option nat :=
  if units_ || subsections_ then None else if sections_ then Some 1%nat else Some 0%nat.

End CourseQualityView.

(** ** The report read off the tree *)

(** The units that the loops of [_get_subsections_and_units] run over: the
    visible units of the subsections taken. *)
Definition taken_units (get_bool_param : Request -> string -> bool -> bool)
  (course : XBlock) (request : Request) : list XBlock :=
  List.concat (List.map _get_visible_children
                 (taken_subsections get_bool_param course request)).

(** The entry of a unit in its unit dictionary. *)
Definition unit_info_of (unit : XBlock) : UnitInfo :=
  {| num_leaf_blocks := length (_get_leaf_blocks unit);
     leaf_block_types :=
       list_to_set (List.map (fun block => block_type (location block))
                      (_get_leaf_blocks unit)) |}.

(** The block types of the leaves under the visible units of a subsection. *)
Definition block_types_of (subsection : XBlock) : gset string :=
  ⋃ (List.map (fun unit => leaf_block_types (unit_info_of unit))
       (_get_visible_children subsection)).

(** ** Courses without their staff-only blocks *)

(** The tree with every block that has [visible_to_staff_only] set removed,
    at every depth. *)
Fixpoint without_staff_only (b : XBlock) {struct b} : XBlock :=
  Block (location b)
    (match children b with
     | None => None
     | Some c =>
         Some ((fix keep (l : list XBlock) : list XBlock :=
                  match l with
                  | [] => []
                  | x :: l' =>
                      if visible_to_staff_only x then keep l'
                      else without_staff_only x :: keep l'
                  end) c)
     end)
    (visible_to_staff_only b) (hide_from_toc b) (graded b) (highlights b)
    (edx_video_id b) (course_id b) (self_paced b) (highlights_enabled_for_messaging b).

(** Along the blocks that the leaf traversal visits from [b], a block with
    children has at least one child that is not staff-only: removing the
    staff-only blocks turns no parent into a leaf. *)
Fixpoint leaf_status_kept (b : XBlock) {struct b} : bool :=
  match children b with
  | None => true
  | Some c =>
      ((length c =? 0)%nat || existsb (fun x => negb (visible_to_staff_only x)) c)
      && (fix all (l : list XBlock) : bool :=
            match l with
            | [] => true
            | x :: l' => (if visible x then leaf_status_kept x else true) && all l'
            end) c
  end.

(** [leaf_status_kept] for every unit that the report covers. *)
Definition units_keep_leaf_status (course : XBlock) : Prop :=
  forall section subsection unit,
    List.In section (_get_children course) -> visible section = true ->
    List.In subsection (_get_children section) -> visible subsection = true ->
    List.In unit (_get_children subsection) -> visible unit = true ->
    leaf_status_kept unit = true.

(** The usage keys of the course are unique. *)
Definition unique_locations (course : XBlock) : Prop :=
  List.NoDup (List.map location (all_blocks course)).

(** ** Request parameters (views/utils.py) *)

Module Utils.

Definition lower_ascii (c : ascii) : ascii :=
  let n := nat_of_ascii c in
  if ((65 <=? n) && (n <=? 90))%nat then ascii_of_nat (n + 32) else c.

Fixpoint lower (s : string) : string :=
  match s with
  | EmptyString => EmptyString
  | String c s' => String (lower_ascii c) (lower s')
  end.

(** Modelled from the spec: the parsing of a query parameter, done outside
    course_quality.py.  A parameter is a boolean, parsed case-insensitively
    from "true" or "false". *)
Definition to_bool (value : string) : option bool :=
  if String.eqb (lower value) "true" then Some true
  else if String.eqb (lower value) "false" then Some false
  else None.

(** Modelled from the spec: [get_bool_param(request, param_name, default)],
    defined in views/utils.py and only imported by course_quality.py.  The
    parsed value of the parameter; [default] when the parameter is absent
    (or is neither "true" nor "false"): [get] reads [all] with the default
    [False], and an absent parameter is false. *)
Definition get_bool_param (request : Request) (param_name : string) (default : bool) : bool :=
  match query_params request !! param_name with
  | None => default
  | Some param_value =>
      match to_bool param_value with
      | None => default
      | Some bool_value => bool_value
      end
  end.


End Utils.

(** ** Sample courses and requests *)

Module Samples.

Definition blk (ty id_ : string) (ch : option (list XBlock)) (staff_only : bool) : XBlock :=
  Block (mkUsageKey ty id_) ch staff_only false false [] EmptyString "course-v1:edX+Q+1"
        false false.

Definition params (l : list (string * string)) : gmap string string := list_to_map l.

Definition author : User := "author".
Definition learner : User := "learner".

Definition access (u : User) (_ : CourseKey) : bool := String.eqb u author.

(** One visible section holding one subsection with two units: two video
    blocks in the first, one html block in the second; and a section that
    only staff can see. *)
Definition unit1 : XBlock :=
  blk "vertical" "u1" (Some [blk "video" "v1" None false; blk "video" "v2" None false]) false.
Definition unit2 : XBlock :=
  blk "vertical" "u2" (Some [blk "html" "h1" None false]) false.
Definition subsection1 : XBlock := blk "sequential" "ss1" (Some [unit1; unit2]) false.
Definition section1 : XBlock := blk "chapter" "s1" (Some [subsection1]) false.
Definition staff_section : XBlock :=
  blk "chapter" "s2" (Some [blk "sequential" "ss2" (Some [blk "vertical" "u3"
    (Some [blk "video" "v3" None false]) false]) false]) true.
Definition course1 : XBlock := blk "course" "course" (Some [section1; staff_section]) false.

(** The collaborators around one course: every key parses, [author] has
    access, the store holds [course] and the metadata service [records]. *)
Definition env_of (course : XBlock) (records : list Video) : Env :=
  mkEnv (fun s => Some s) access (fun _ => Some course) (fun _ => records).

Definition env1 : Env := env_of course1 [mkVideo "val-1" (5 # 2)].

(** A unit whose only child is staff-only, in a course of its own. *)
Definition unit_staff_child : XBlock :=
  blk "vertical" "u1" (Some [blk "html" "h1" None true]) false.
Definition course_staff_child : XBlock :=
  blk "course" "course"
    (Some [blk "chapter" "s1" (Some [blk "sequential" "ss1" (Some [unit_staff_child])
       false]) false]) false.

(** A subsection without units next to [subsection1]. *)
Definition empty_subsection : XBlock := blk "sequential" "ss0" (Some []) false.
Definition section_with_empty : XBlock :=
  blk "chapter" "s1" (Some [subsection1; empty_subsection]) false.
Definition course_with_empty : XBlock := blk "course" "course" (Some [section_with_empty]) false.

(** A graded subsection next to [subsection1]. *)
Definition graded_subsection : XBlock :=
  Block (mkUsageKey "sequential" "exam") (Some []) false false true [] EmptyString
        "course-v1:edX+Q+1" false false.
Definition course_graded : XBlock :=
  blk "course" "course"
    (Some [blk "chapter" "s1" (Some [subsection1; graded_subsection]) false]) false.

Definition request_exclude_graded : Request :=
  mkRequest author (params [("subsections", "true"); ("exclude_graded", "true")]).
Definition request_subsections : Request :=
  mkRequest author (params [("subsections", "true")]).

(** A course without any video block, and a metadata service that holds one
    uploaded video for it. *)
Definition course_no_video : XBlock :=
  blk "course" "course" (Some [blk "chapter" "s1" (Some []) false]) false.

Definition env_no_video : Env := env_of course_no_video [mkVideo "val-1" 90].

(** A course whose only video block carries the id of the one record the
    metadata service holds. *)
Definition course_one_video : XBlock :=
  blk "course" "course"
    (Some [blk "chapter" "s1" (Some [blk "sequential" "ss1" (Some [blk "vertical" "u1"
       (Some [Block (mkUsageKey "video" "v1") None false false false [] "val-1"
                "course-v1:edX+Q+1" false false]) false]) false]) false]) false.

Definition env_one_video : Env := env_of course_one_video [mkVideo "val-1" (5 # 2)].

(** Block counts in which 1 and 3 both occur twice. *)
Definition tied_counts : list Q := [3; 1; 3; 1; 2].

Definition request_all : Request := mkRequest author (params [("all", "true")]).
Definition request_learner : Request := mkRequest learner (params [("all", "true")]).

End Samples.

(** * Properties *)

(** ** Request parameters, access control and the course load *)

Section GetFacts.

Variable get_bool_param : Request -> string -> bool -> bool.
Variable env : Env.

Lemma get_forbidden request course_id_ course_key :
  from_string env course_id_ = Some course_key ->
  has_course_author_access env (user request) course_key = false ->
  get get_bool_param env request course_id_ =
    ([], inr (ErrorResponse 403
                "The user requested does not have the required permissions."
                "user_mismatch")).
Proof.
  intros Hkey Hacc. unfold get. rewrite Hkey. cbn. rewrite Hacc. reflexivity.
Qed.


End GetFacts.



(** C5: when the principal lacks course-author access, [get] answers with
    the 403 error and nothing else: the log of store accesses and tree
    traversals is empty and the response carries no report. *)
Theorem forbidden_before_any_store_access
  (get_bool_param : Request -> string -> bool -> bool) (env : Env)
  (request : Request) (course_id_ : string) (course_key : CourseKey) :
  from_string env course_id_ = Some course_key ->
  has_course_author_access env (user request) course_key = false ->
  log_of (get get_bool_param env request course_id_) = []
  /\ outcome (get get_bool_param env request course_id_) =
       inr (ErrorResponse HTTP_403_FORBIDDEN
              "The user requested does not have the required permissions."
              "user_mismatch")
  /\ forall report,
       outcome (get get_bool_param env request course_id_) <> inr (OkResponse report).
Proof.
  intros Hkey Hacc.
  rewrite (get_forbidden get_bool_param env request course_id_ course_key Hkey Hacc).
  repeat split. intros report H. discriminate H.
Qed.

Lemma forbidden_before_any_store_access_witness :
  log_of (get Utils.get_bool_param Samples.env1 Samples.request_learner
            "course-v1:edX+Q+1") = []
  /\ outcome (get Utils.get_bool_param Samples.env1 Samples.request_learner
                "course-v1:edX+Q+1") =
       inr (ErrorResponse HTTP_403_FORBIDDEN
              "The user requested does not have the required permissions."
              "user_mismatch")
  /\ forall report,
       outcome (get Utils.get_bool_param Samples.env1 Samples.request_learner
                  "course-v1:edX+Q+1") <> inr (OkResponse report).
Proof.
  apply (forbidden_before_any_store_access Utils.get_bool_param Samples.env1
           Samples.request_learner "course-v1:edX+Q+1" "course-v1:edX+Q+1");
    reflexivity.
Defined.





(** ** Videos *)

(** C4 as stated fails: the records of the metadata service are not tied to
    the video blocks of the course, so there can be more of them. *)
Lemma more_encoded_than_video_blocks :
  videos_total_number (_videos_quality Samples.env_no_video Samples.course_no_video) = 0%nat
  /\ videos_num_mobile_encoded
       (_videos_quality Samples.env_no_video Samples.course_no_video) = 1%nat
  /\ ~ (videos_num_mobile_encoded
          (_videos_quality Samples.env_no_video Samples.course_no_video)
        <= videos_total_number
             (_videos_quality Samples.env_no_video Samples.course_no_video))%nat.
Proof.
  repeat split. vm_compute. lia.
Qed.

(** C4, amended: [num_mobile_encoded] is the number of records that the
    metadata service returns for the course and [durations] is the summary
    of the durations of exactly those records; [num_mobile_encoded] is at
    most [total_number] whenever the records have distinct video ids and
    each id is carried by a video block of the course. *)
Theorem videos_encoded_records (env : Env) (course : XBlock) :
  let records := get_videos_for_course env (course_id course) in
  let video_blocks := get_items env (course_id course) "video" in
  let report := _videos_quality env course in
  videos_total_number report = length video_blocks
  /\ videos_num_mobile_encoded report = length records
  /\ videos_durations report = _stats_dict (List.map duration records)
  /\ (List.NoDup (List.map val_edx_video_id records) ->
      (forall r, List.In r records ->
         exists b, List.In b video_blocks /\ edx_video_id b = val_edx_video_id r) ->
      (videos_num_mobile_encoded report <= videos_total_number report)%nat).
Proof.
  intros records video_blocks report. repeat split.
  intros Hnodup Hsub. cbn.
  fold records video_blocks.
  rewrite <- (List.length_map val_edx_video_id records).
  rewrite <- (List.length_map edx_video_id video_blocks).
  apply List.NoDup_incl_length; [exact Hnodup|].
  intros vid Hin. apply List.in_map_iff in Hin. destruct Hin as (r & <- & Hr).
  destruct (Hsub r Hr) as (b & Hb & Heq). rewrite <- Heq.
  apply List.in_map. exact Hb.
Qed.

Lemma videos_encoded_records_witness :
  videos_num_mobile_encoded
    (_videos_quality Samples.env_one_video Samples.course_one_video) = 1%nat
  /\ (videos_num_mobile_encoded
        (_videos_quality Samples.env_one_video Samples.course_one_video)
      <= videos_total_number
           (_videos_quality Samples.env_one_video Samples.course_one_video))%nat.
Proof.
  destruct (videos_encoded_records Samples.env_one_video Samples.course_one_video)
    as (_ & Hn & _ & Hle).
  split; [exact Hn|]. apply Hle.
  - repeat constructor. simpl. intros [].
  - intros r [<-|[]]. eexists. split; [left; reflexivity|reflexivity].
Defined.

(** ** Statistics *)

Section Statistics.

Import Numpy Scipy.

Lemma np_around_cases x :
  let f := Qfloor x in
  (np_around x = f /\ x - inject_Z f <= 1 # 2 /\ (x - inject_Z f == 1 # 2 -> Z.even f = true))
  \/ (np_around x = (f + 1)%Z /\ 1 # 2 <= x - inject_Z f
      /\ (x - inject_Z f == 1 # 2 -> Z.even f = false)).
Proof.
  intros f. unfold np_around. fold f.
  destruct (Qcompare (x - inject_Z f) (1 # 2)) eqn:Hc.
  - apply Qeq_alt in Hc. destruct (Z.even f) eqn:He.
    + left. split; [reflexivity|]. split; [rewrite Hc; lra | trivial].
    + right. split; [reflexivity|]. split; [rewrite Hc; lra | trivial].
  - apply Qlt_alt in Hc. left. split; [reflexivity|]. split; [lra|]. intros H. lra.
  - apply Qgt_alt in Hc. right. split; [reflexivity|]. split; [lra|]. intros H. lra.
Qed.


Lemma np_around_floor_ceiling x :
  (Qfloor x <= np_around x <= Qceiling x)%Z.
Proof.
  pose proof (Qfloor_le x) as Hlo. pose proof (Qle_ceiling x) as Hhi.
  destruct (np_around_cases x) as [(-> & Hr & _)|(-> & Hr & _)].
  - split; [lia|]. rewrite Zle_Qle. lra.
  - split; [lia|]. 
    assert (Qfloor x < Qceiling x)%Z; [|lia].
    rewrite Zlt_Qlt. lra.
Qed.

Lemma py_min_from_le m l :
  py_min_from m l <= m /\ (forall x, List.In x l -> py_min_from m l <= x).
Proof.
  revert m. induction l as [|y l IH]; intros m; simpl.
  - split; [lra | intros x []].
  - destruct (IH (if Qle_bool m y then m else y)) as [H1 H2].
    destruct (Qle_bool m y) eqn:Hb.
    + apply Qle_bool_iff in Hb. split; [exact H1|].
      intros x [<-|Hx]; [lra | exact (H2 x Hx)].
    + assert (y < m).
      { apply Qnot_le_lt. intros Hle. apply Qle_bool_iff in Hle. congruence. }
      split; [lra|]. intros x [<-|Hx]; [exact H1 | exact (H2 x Hx)].
Qed.

Lemma py_max_from_ge m l :
  m <= py_max_from m l /\ (forall x, List.In x l -> x <= py_max_from m l).
Proof.
  revert m. induction l as [|y l IH]; intros m; simpl.
  - split; [lra | intros x []].
  - destruct (IH (if Qle_bool y m then m else y)) as [H1 H2].
    destruct (Qle_bool y m) eqn:Hb.
    + apply Qle_bool_iff in Hb. split; [exact H1|].
      intros x [<-|Hx]; [lra | exact (H2 x Hx)].
    + assert (m < y).
      { apply Qnot_le_lt. intros Hle. apply Qle_bool_iff in Hle. congruence. }
      split; [lra|]. intros x [<-|Hx]; [exact H1 | exact (H2 x Hx)].
Qed.

Lemma py_min_from_in m l : List.In (py_min_from m l) (m :: l).
Proof.
  revert m. induction l as [|y l IH]; intros m; simpl; [left; reflexivity|].
  destruct (IH (if Qle_bool m y then m else y)) as [H|H].
  - destruct (Qle_bool m y); [left | right; left]; exact H.
  - right; right; exact H.
Qed.

Lemma py_max_from_in m l : List.In (py_max_from m l) (m :: l).
Proof.
  revert m. induction l as [|y l IH]; intros m; simpl; [left; reflexivity|].
  destruct (IH (if Qle_bool y m then m else y)) as [H|H].
  - destruct (Qle_bool y m); [left | right; left]; exact H.
  - right; right; exact H.
Qed.

Lemma np_sum_bounds lo hi l :
  (forall x, List.In x l -> lo <= x <= hi) ->
  of_nat (length l) * lo <= np_sum l <= of_nat (length l) * hi.
Proof.
  unfold of_nat. induction l as [|y l IH]; intros Hall.
  - change (inject_Z (Z.of_nat (length (@nil Q)))) with 0. simpl np_sum. lra.
  - change (length (y :: l)) with (S (length l)).
    rewrite Nat2Z.inj_succ. unfold Z.succ. rewrite inject_Z_plus.
    change (inject_Z 1) with 1. simpl np_sum.
    destruct (Hall y (or_introl eq_refl)) as [Hy1 Hy2].
    destruct IH as [IH1 IH2]; [intros x Hx; apply Hall; right; exact Hx|].
    lra.
Qed.

Lemma np_mean_bounds lo hi l :
  l <> [] -> (forall x, List.In x l -> lo <= x <= hi) -> lo <= np_mean l <= hi.
Proof.
  intros Hne Hall. destruct (np_sum_bounds lo hi l Hall) as [H1 H2].
  assert (Hpos : 0 < of_nat (length l)).
  { unfold of_nat. change 0 with (inject_Z 0). rewrite <- Zlt_Qlt.
    destruct l; [congruence | simpl; lia]. }
  unfold np_mean. fold (of_nat (length l)). split.
  - apply Qle_shift_div_l; [exact Hpos | lra].
  - apply Qle_shift_div_r; [exact Hpos | lra].
Qed.



Lemma np_sort_in a x : List.In x (np_sort a) <-> List.In x a.
Proof.
  unfold np_sort. pose proof (QSort.Permuted_sort a) as Hp. split; intros H.
  - eapply Permutation_in; [apply Permutation_sym, Hp | exact H].
  - eapply Permutation_in; [exact Hp | exact H].
Qed.

Lemma np_sort_length a : length (np_sort a) = length a.
Proof.
  unfold np_sort. symmetry. apply Permutation_length, QSort.Permuted_sort.
Qed.


Lemma count_eq_proper x y a : x == y -> count_eq x a = count_eq y a.
Proof.
  intros Hxy. unfold count_eq. induction a as [|z a IH]; [reflexivity|]. simpl.
  assert (Hb : Qeq_bool x z = Qeq_bool y z).
  { destruct (Qeq_bool x z) eqn:H1, (Qeq_bool y z) eqn:H2; try reflexivity.
    - apply Qeq_bool_iff in H1. apply Qeq_bool_neq in H2. exfalso. apply H2.
      rewrite <- Hxy. exact H1.
    - apply Qeq_bool_iff in H2. apply Qeq_bool_neq in H1. exfalso. apply H1.
      rewrite Hxy. exact H2. }
  rewrite Hb. destruct (Qeq_bool y z); simpl; rewrite IH; reflexivity.
Qed.

Lemma count_eq_pos x a : List.In x a -> (1 <= count_eq x a)%nat.
Proof.
  unfold count_eq. induction a as [|z a IH]; intros Hin; [destruct Hin|]. simpl.
  destruct Hin as [->|Hin].
  - rewrite (proj2 (Qeq_bool_iff x x) (Qeq_refl x)). simpl. lia.
  - destruct (Qeq_bool x z); simpl; [lia | exact (IH Hin)].
Qed.

Lemma np_sort_sorted a : StronglySorted Qle (np_sort a).
Proof.
  unfold np_sort.
  assert (Htrans : Transitive (fun x y : Q => is_true (QOrder.leb x y))).
  { intros x y z. unfold QOrder.leb, is_true. rewrite !Qle_bool_iff. apply Qle_trans. }
  pose proof (QSort.StronglySorted_sort a Htrans) as Hs.
  induction Hs as [|x l Hs IH Hall]; constructor; [exact IH|].
  eapply List.Forall_impl; [|exact Hall].
  intros y Hy. apply Qle_bool_iff. exact Hy.
Qed.

Lemma uniq_from_in p aux u : List.In u (uniq_from p aux) -> List.In u aux.
Proof.
  revert p. induction aux as [|y aux IH]; intros p; simpl; [tauto|].
  destruct (Qeq_bool p y).
  - intros H. right. exact (IH p H).
  - intros [<-|H]; [left; reflexivity | right; exact (IH y H)].
Qed.

Lemma uniq_from_sorted aux p :
  StronglySorted Qle (p :: aux) -> StronglySorted Qlt (p :: uniq_from p aux).
Proof.
  revert p. induction aux as [|y aux IH]; intros p Hs; simpl.
  - constructor; constructor.
  - apply StronglySorted_inv in Hs. destruct Hs as [Hs Hall].
    apply StronglySorted_inv in Hs. destruct Hs as [Hs' Hall'].
    apply List.Forall_cons_iff in Hall. destruct Hall as [Hpy Hall].
    destruct (Qeq_bool p y) eqn:Hb.
    + apply IH. constructor; assumption.
    + apply Qeq_bool_neq in Hb.
      assert (Hlt : p < y).
      { apply Qnot_le_lt. intros Hle. apply Hb. apply Qle_antisym; assumption. }
      constructor.
      * apply IH. constructor; assumption.
      * constructor; [exact Hlt|].
        apply List.Forall_forall. intros u Hu. apply uniq_from_in in Hu.
        rewrite List.Forall_forall in Hall'. specialize (Hall' u Hu). lra.
Qed.

Lemma uniq_from_covers aux p y :
  List.In y (p :: aux) -> exists u, List.In u (p :: uniq_from p aux) /\ u == y.
Proof.
  revert p. induction aux as [|y0 aux IH]; intros p Hin.
  - destruct Hin as [<-|[]]. exists p. split; [left; reflexivity | reflexivity].
  - simpl. destruct Hin as [<-|[<-|Hin]].
    + exists p. split; [left; reflexivity | reflexivity].
    + destruct (Qeq_bool p y0) eqn:Hb.
      * apply Qeq_bool_iff in Hb. exists p. split; [left; reflexivity | exact Hb].
      * exists y0. split; [right; left; reflexivity | reflexivity].
    + destruct (Qeq_bool p y0) eqn:Hb.
      * apply IH. right. exact Hin.
      * destruct (IH y0 (or_intror Hin)) as (u & Hu & Heq).
        exists u. split; [right; exact Hu | exact Heq].
Qed.

Lemma np_unique_in a u : List.In u (np_unique a) -> List.In u a.
Proof.
  unfold np_unique. intros H. apply np_sort_in.
  destruct (np_sort a) as [|x aux]; [exact H|].
  destruct H as [<-|H]; [left; reflexivity | right; exact (uniq_from_in _ _ _ H)].
Qed.

Lemma np_unique_covers a y :
  List.In y a -> exists u, List.In u (np_unique a) /\ u == y.
Proof.
  intros H. apply np_sort_in in H. unfold np_unique.
  destruct (np_sort a) as [|x aux]; [destruct H|].
  apply uniq_from_covers. exact H.
Qed.

Lemma np_unique_sorted a : StronglySorted Qlt (np_unique a).
Proof.
  unfold np_unique. pose proof (np_sort_sorted a) as Hs.
  destruct (np_sort a) as [|x aux]; [constructor|].
  apply uniq_from_sorted. exact Hs.
Qed.

(** The loop of [stats.mode] over increasing scores: either no score beats
    the initial count, or the result is the first score with the largest
    count. *)
Lemma mode_fold a scores m0 c0 :
  StronglySorted Qlt scores ->
  let r := fold_left (mode_step a) scores (m0, c0) in
  (r = (m0, c0) /\ forall u, List.In u scores -> (count_eq u a <= c0)%nat)
  \/ (List.In (fst r) scores /\ snd r = count_eq (fst r) a /\ (c0 < snd r)%nat
      /\ (forall u, List.In u scores -> (count_eq u a <= snd r)%nat)
      /\ (forall u, List.In u scores -> count_eq u a = snd r -> fst r <= u)).
Proof.
  intros Hs. revert m0 c0. induction Hs as [|u0 scores Hs IH Hall]; intros m0 c0 r.
  - left. split; [reflexivity | intros u []].
  - rewrite List.Forall_forall in Hall.
    subst r.
    change (fold_left (mode_step a) (u0 :: scores) (m0, c0))
      with (fold_left (mode_step a) scores (mode_step a (m0, c0) u0)).
    assert (Hstep : mode_step a (m0, c0) u0 =
                    if (c0 <? count_eq u0 a)%nat then (u0, count_eq u0 a) else (m0, c0))
      by reflexivity.
    rewrite Hstep. clear Hstep.
    destruct (c0 <? count_eq u0 a)%nat eqn:Hlt.
    + apply Nat.ltb_lt in Hlt. right.
      destruct (IH u0 (count_eq u0 a)) as [(Hr & Hle)|(Hin & Hc & Hgt & Hle & Htie)].
      * rewrite Hr. simpl. split; [left; reflexivity|]. split; [reflexivity|].
        split; [exact Hlt|]. split.
        -- intros u [<-|Hu]; [lia | exact (Hle u Hu)].
        -- intros u [<-|Hu] _; [lra | specialize (Hall u Hu); lra].
      * split; [right; exact Hin|]. split; [exact Hc|]. split; [lia|]. split.
        -- intros u [<-|Hu]; [lia | exact (Hle u Hu)].
        -- intros u [<-|Hu] Heq; [lia | exact (Htie u Hu Heq)].
    + apply Nat.ltb_ge in Hlt.
      destruct (IH m0 c0) as [(Hr & Hle)|(Hin & Hc & Hgt & Hle & Htie)].
      * left. split; [exact Hr|]. intros u [<-|Hu]; [exact Hlt | exact (Hle u Hu)].
      * right. split; [right; exact Hin|]. split; [exact Hc|]. split; [exact Hgt|]. split.
        -- intros u [<-|Hu]; [lia | exact (Hle u Hu)].
        -- intros u [<-|Hu] Heq; [lia | exact (Htie u Hu Heq)].
Qed.

Lemma mode_spec a :
  a <> [] ->
  let m := fst (mode a) in
  List.In m a
  /\ (forall y, List.In y a -> (count_eq y a <= count_eq m a)%nat)
  /\ (forall y, List.In y a -> count_eq y a = count_eq m a -> m <= y).
Proof.
  intros Hne m. subst m. unfold mode.
  destruct (mode_fold a (np_unique a) 0 0%nat (np_unique_sorted a))
    as [(_ & Hle)|(Hin & Hc & _ & Hle & Htie)].
  - exfalso. destruct a as [|x a]; [congruence|].
    destruct (np_unique_covers (x :: a) x (or_introl eq_refl)) as (u & Hu & Heq).
    pose proof (Hle u Hu) as H1.
    pose proof (count_eq_pos x (x :: a) (or_introl eq_refl)) as H2.
    rewrite (count_eq_proper u x _ Heq) in H1. lia.
  - rewrite <- Hc. split; [apply np_unique_in; exact Hin|]. split.
    + intros y Hy. destruct (np_unique_covers a y Hy) as (u & Hu & Heq).
      rewrite <- (count_eq_proper u y _ Heq). exact (Hle u Hu).
    + intros y Hy Hcount. destruct (np_unique_covers a y Hy) as (u & Hu & Heq).
      rewrite <- (count_eq_proper u y _ Heq) in Hcount.
      rewrite <- Heq. exact (Htie u Hu Hcount).
Qed.

Lemma firstn_1_skipn (l : list Q) (k : nat) :
  (k < length l)%nat -> firstn 1 (skipn k l) = [List.nth k l 0].
Proof.
  revert l. induction k as [|k IH]; intros [|x l] Hk; simpl in Hk; try lia.
  - reflexivity.
  - simpl. apply IH. lia.
Qed.

Lemma firstn_2_skipn (l : list Q) (k : nat) :
  (S k < length l)%nat -> firstn 2 (skipn k l) = [List.nth k l 0; List.nth (S k) l 0].
Proof.
  revert l. induction k as [|k IH]; intros [|x l] Hk; simpl in Hk; try lia.
  - destruct l as [|y l]; [simpl in Hk; lia | reflexivity].
  - change (firstn 2 (skipn k l) = [List.nth k l 0; List.nth (S k) l 0]). apply IH. lia.
Qed.

(** [np_median] is the middle value of the sorted data, or the mean of the
    two middle values. *)
Lemma np_median_odd (a : list Q) (k : nat) :
  length a = (2 * k + 1)%nat -> np_median a == List.nth k (np_sort a) 0.
Proof.
  intros Hlen. unfold np_median. rewrite Hlen.
  assert (Hdiv : ((2 * k + 1) / 2 = k)%nat).
  { symmetry. apply (Nat.div_unique (2 * k + 1) 2 k 1); lia. }
  rewrite Hdiv.
  replace (Nat.even (2 * k + 1)) with false
    by (symmetry; rewrite Nat.add_comm, Nat.even_add_mul_2; reflexivity).
  rewrite firstn_1_skipn by (rewrite np_sort_length; lia).
  unfold np_mean, np_sum. simpl. field.
Qed.

Lemma np_median_even (a : list Q) (k : nat) :
  length a = (2 * k + 2)%nat ->
  np_median a == (List.nth k (np_sort a) 0 + List.nth (S k) (np_sort a) 0) / 2.
Proof.
  intros Hlen. unfold np_median. rewrite Hlen.
  assert (Hdiv : ((2 * k + 2) / 2 = S k)%nat).
  { symmetry. apply (Nat.div_unique (2 * k + 2) 2 (S k) 0); lia. }
  rewrite Hdiv.
  replace (Nat.even (2 * k + 2)) with true
    by (symmetry; rewrite Nat.add_comm, Nat.even_add_mul_2; reflexivity).
  replace (S k - 1)%nat with k by lia.
  rewrite firstn_2_skipn by (rewrite np_sort_length; lia).
  unfold np_mean, np_sum. simpl. field.
Qed.

End Statistics.







(** C7: for a non-empty sequence, [mode] is a value of the sequence that
    occurs at least as often as every other value, and it is the smallest
    of the values that occur that often. *)
Theorem stats_mode_smallest_most_frequent (data : list Q) :
  data <> [] ->
  exists m : Q,
    st_mode (_stats_dict data) = Some m
    /\ List.In m data
    /\ (forall y, List.In y data -> (Scipy.count_eq y data <= Scipy.count_eq m data)%nat)
    /\ (forall y, List.In y data ->
          Scipy.count_eq y data = Scipy.count_eq m data -> m <= y).
Proof.
  intros Hne. destruct data as [|x data]; [congruence|].
  exists (fst (Scipy.mode (x :: data))). split; [reflexivity|].
  apply mode_spec. discriminate.
Qed.

Lemma stats_mode_smallest_most_frequent_witness :
  exists m : Q,
    st_mode (_stats_dict Samples.tied_counts) = Some m
    /\ List.In m Samples.tied_counts
    /\ (forall y, List.In y Samples.tied_counts ->
          (Scipy.count_eq y Samples.tied_counts <= Scipy.count_eq m Samples.tied_counts)%nat)
    /\ (forall y, List.In y Samples.tied_counts ->
          Scipy.count_eq y Samples.tied_counts = Scipy.count_eq m Samples.tied_counts -> m <= y).
Proof.
  apply (stats_mode_smallest_most_frequent Samples.tied_counts). discriminate.
Defined.

Example stats_mode_tie : st_mode (_stats_dict Samples.tied_counts) = Some 1.
Proof. vm_compute. reflexivity. Qed.

(** ** Subsections and units *)

Section Traversal.

Variable get_bool_param : Request -> string -> bool -> bool.

Lemma fold_left_concat {A B C : Type} (f : A -> B -> A) (g : C -> list B) (l : list C) (a : A) :
  fold_left (fun acc x => fold_left f (g x) acc) l a = fold_left f (List.concat (List.map g l)) a.
Proof.
  revert a. induction l as [|x l IH]; intros a; simpl; [reflexivity|].
  rewrite fold_left_app. apply IH.
Qed.

Lemma subsections_and_units_fold course request :
  _get_subsections_and_units get_bool_param course request =
    fold_left add_subsection (taken_subsections get_bool_param course request) ∅.
Proof.
  unfold _get_subsections_and_units, taken_subsections, _get_sections, _get_all_children.
  simpl. apply (fold_left_concat add_subsection).
Qed.

Lemma dom_fold_add_subsection (l : list XBlock) (d : gmap UsageKey (gmap UsageKey UnitInfo)) :
  dom (fold_left add_subsection l d) = dom d ∪ list_to_set (List.map location l).
Proof.
  revert d. induction l as [|s l IH]; intros d; simpl.
  - set_solver.
  - rewrite IH. unfold add_subsection. rewrite dom_insert_L. set_solver.
Qed.

Lemma dom_subsections_and_units course request :
  dom (_get_subsections_and_units get_bool_param course request) =
    list_to_set (List.map location (taken_subsections get_bool_param course request)).
Proof.
  rewrite subsections_and_units_fold, dom_fold_add_subsection. set_solver.
Qed.

Lemma subsections_total_visible_dom course request :
  subsections_total_visible (_subsections_quality get_bool_param course request) =
    size (dom (_get_subsections_and_units get_bool_param course request)).
Proof.
  unfold _subsections_quality, num_block_types_per_subsection_dict. simpl.
  rewrite map_size_fmap. symmetry. apply size_dom.
Qed.

Lemma taken_subsections_in course request s :
  List.In s (taken_subsections get_bool_param course request) <->
  exists section,
    List.In section (_get_children course) /\ visible section = true
    /\ List.In s (_get_children section) /\ visible s = true
    /\ (get_bool_param request "exclude_graded" false = true -> graded s = false).
Proof.
  unfold taken_subsections, _get_sections, _get_all_children. simpl.
  rewrite List.in_concat. split.
  - intros (l & Hl & Hs). apply List.in_map_iff in Hl. destruct Hl as (section & <- & Hsec).
    apply List.filter_In in Hsec. destruct Hsec as [Hsec Hvis].
    exists section. split; [exact Hsec|]. split; [exact Hvis|].
    unfold visible_subsections_of, _get_visible_children, _get_all_children in Hs. simpl in Hs.
    destruct (get_bool_param request "exclude_graded" false).
    + apply List.filter_In in Hs. destruct Hs as [Hs Hg].
      apply List.filter_In in Hs. destruct Hs as [Hs Hv].
      split; [exact Hs|]. split; [exact Hv|]. intros _. destruct (graded s); [discriminate|reflexivity].
    + apply List.filter_In in Hs. destruct Hs as [Hs Hv].
      split; [exact Hs|]. split; [exact Hv|]. discriminate.
  - intros (section & Hsec & Hvis & Hs & Hv & Hg).
    exists (visible_subsections_of get_bool_param request section). split.
    + apply List.in_map. apply List.filter_In. split; assumption.
    + unfold visible_subsections_of, _get_visible_children, _get_all_children. simpl.
      destruct (get_bool_param request "exclude_graded" false).
      * apply List.filter_In. split; [apply List.filter_In; split; assumption|].
        rewrite Hg; reflexivity.
      * apply List.filter_In; split; assumption.
Qed.




Lemma all_blocks_unfold b :
  all_blocks b = b :: List.concat (List.map all_blocks (_get_children b)).
Proof.
  destruct b as [loc ch ? ? ? ? ? ? ? ?]. unfold _get_children. simpl.
  destruct ch as [c|]; [|reflexivity]. f_equal.
  induction c as [|x c IH]; [reflexivity|]. simpl. rewrite IH. reflexivity.
Qed.

Lemma all_blocks_self b : List.In b (all_blocks b).
Proof. rewrite all_blocks_unfold. left. reflexivity. Qed.

Lemma all_blocks_child b c x :
  List.In c (_get_children b) -> List.In x (all_blocks c) -> List.In x (all_blocks b).
Proof.
  intros Hc Hx. rewrite (all_blocks_unfold b). right.
  apply List.in_concat. exists (all_blocks c). split; [apply List.in_map; exact Hc | exact Hx].
Qed.


Lemma filter_length_Permutation {A : Type} (f : A -> bool) (l l' : list A) :
  Permutation l l' -> length (List.filter f l) = length (List.filter f l').
Proof.
  induction 1 as [|x l l' _ IH|x y l|l l' l'' _ IH1 _ IH2]; simpl.
  - reflexivity.
  - destruct (f x); simpl; rewrite IH; reflexivity.
  - destruct (f x), (f y); reflexivity.
  - rewrite IH1. exact IH2.
Qed.


Lemma num_block_types_empty : num_block_types ∅ = 0%nat.
Proof. reflexivity. Qed.

End Traversal.

(** C8: on the same course, [subsections.total_visible] computed with
    [exclude_graded] set is at most the value computed without it. *)
Theorem exclude_graded_only_removes_subsections
  (get_bool_param : Request -> string -> bool -> bool) (course : XBlock)
  (request_excluding request_including : Request) :
  get_bool_param request_excluding "exclude_graded" false = true ->
  get_bool_param request_including "exclude_graded" false = false ->
  (subsections_total_visible (_subsections_quality get_bool_param course request_excluding)
   <= subsections_total_visible (_subsections_quality get_bool_param course request_including))%nat.
Proof.
  intros Hexcl Hincl. rewrite !subsections_total_visible_dom, !dom_subsections_and_units.
  apply subseteq_size. intros k.
  rewrite !elem_of_list_to_set, !list_elem_of_In, !List.in_map_iff.
  intros (s & Hk & Hs). exists s. split; [exact Hk|].
  apply taken_subsections_in in Hs. apply taken_subsections_in.
  destruct Hs as (section & H1 & H2 & H3 & H4 & _).
  exists section. do 4 (split; [assumption|]). rewrite Hincl. discriminate.
Qed.

Lemma exclude_graded_only_removes_subsections_witness :
  (subsections_total_visible
     (_subsections_quality Utils.get_bool_param Samples.course_graded
        Samples.request_exclude_graded)
   <= subsections_total_visible
        (_subsections_quality Utils.get_bool_param Samples.course_graded
           Samples.request_subsections))%nat.
Proof.
  apply (exclude_graded_only_removes_subsections Utils.get_bool_param Samples.course_graded
           Samples.request_exclude_graded Samples.request_subsections); reflexivity.
Defined.

Example exclude_graded_sample :
  subsections_total_visible
    (_subsections_quality Utils.get_bool_param Samples.course_graded
       Samples.request_exclude_graded) = 1%nat
  /\ subsections_total_visible
       (_subsections_quality Utils.get_bool_param Samples.course_graded
          Samples.request_subsections) = 2%nat.
Proof. split; vm_compute; reflexivity. Qed.



Example empty_subsection_sample :
  _subsections_quality Utils.get_bool_param Samples.course_with_empty
    Samples.request_subsections
  = {| subsections_total_visible := 2;
       subsections_num_with_one_block_type := 0;
       subsections_num_block_types :=
         mkStats (Some 0) (Some 2) (Some 1%Z) (Some 1%Z) (Some 0) |}.
Proof. vm_compute. reflexivity. Qed.

(** ** Removing the staff-only blocks *)

Lemma XBlock_children_ind (P : XBlock -> Prop) :
  (forall b, (forall c, List.In c (_get_children b) -> P c) -> P b) -> forall b, P b.
Proof.
  intros H. fix IH 1. intros [loc ch f1 f2 f3 f4 f5 f6 f7 f8]. apply H.
  unfold _get_children. simpl. destruct ch as [c|]; [|intros x []].
  induction c as [|x c IHc]; intros y Hy; [destruct Hy|].
  destruct Hy as [<-|Hy]; [apply IH | exact (IHc y Hy)].
Qed.

Lemma without_staff_only_location b : location (without_staff_only b) = location b.
Proof. destruct b; reflexivity. Qed.

Lemma without_staff_only_visible b : visible (without_staff_only b) = visible b.
Proof. destruct b; reflexivity. Qed.

Lemma without_staff_only_graded b : graded (without_staff_only b) = graded b.
Proof. destruct b; reflexivity. Qed.

Lemma without_staff_only_highlights b : highlights (without_staff_only b) = highlights b.
Proof. destruct b; reflexivity. Qed.

Lemma without_staff_only_children b :
  _get_children (without_staff_only b) =
    List.map without_staff_only
      (List.filter (fun x => negb (visible_to_staff_only x)) (_get_children b)).
Proof.
  destruct b as [loc ch f1 f2 f3 f4 f5 f6 f7 f8]. unfold _get_children. simpl.
  destruct ch as [c|]; [|reflexivity].
  induction c as [|x c IH]; [reflexivity|]. simpl.
  destruct (visible_to_staff_only x); simpl; rewrite IH; reflexivity.
Qed.

Lemma filter_map_comm {A B : Type} (f : A -> B) (p : B -> bool) (q : A -> bool) (l : list A) :
  (forall x, p (f x) = q x) -> List.filter p (List.map f l) = List.map f (List.filter q l).
Proof.
  intros H. induction l as [|x l IH]; [reflexivity|]. simpl. rewrite H.
  destruct (q x); simpl; rewrite IH; reflexivity.
Qed.

Lemma filter_filter_visible (l : list XBlock) :
  List.filter visible (List.filter (fun x => negb (visible_to_staff_only x)) l) =
  List.filter visible l.
Proof.
  induction l as [|x l IH]; [reflexivity|]. simpl. unfold visible at 2.
  destruct (visible_to_staff_only x) eqn:Hs; simpl.
  - exact IH.
  - unfold visible at 1. rewrite Hs. simpl. destruct (hide_from_toc x); simpl; rewrite IH; reflexivity.
Qed.

Lemma without_staff_only_visible_children b :
  _get_visible_children (without_staff_only b) =
    List.map without_staff_only (_get_visible_children b).
Proof.
  unfold _get_visible_children, _get_all_children. simpl.
  rewrite without_staff_only_children.
  rewrite (filter_map_comm without_staff_only visible visible)
    by apply without_staff_only_visible.
  rewrite filter_filter_visible. reflexivity.
Qed.

Lemma traverse_pre_order_unfold keep filter_func n :
  traverse_pre_order keep filter_func n =
    (if filter_func n then [n] else []) ++
    List.concat (List.map (traverse_pre_order keep filter_func)
                   (List.filter keep (_get_children n))).
Proof.
  destruct n as [loc ch f1 f2 f3 f4 f5 f6 f7 f8]. unfold _get_children. simpl.
  destruct ch as [c|]; [|reflexivity]. f_equal.
  induction c as [|x c IH]; [reflexivity|]. simpl.
  destruct (keep x); simpl; rewrite IH; reflexivity.
Qed.

Lemma leaf_status_kept_unfold b :
  leaf_status_kept b =
    (((length (_get_children b) =? 0)%nat
      || existsb (fun x => negb (visible_to_staff_only x)) (_get_children b))
     && forallb leaf_status_kept (List.filter visible (_get_children b))).
Proof.
  destruct b as [loc ch f1 f2 f3 f4 f5 f6 f7 f8]. unfold _get_children. simpl.
  destruct ch as [c|]; [|reflexivity]. f_equal.
  induction c as [|x c IH]; [reflexivity|]. simpl.
  destruct (visible x); simpl; rewrite IH; reflexivity.
Qed.

Lemma leaf_status_kept_is_leaf b :
  leaf_status_kept b = true ->
  (length (_get_children (without_staff_only b)) =? 0)%nat
  = (length (_get_children b) =? 0)%nat.
Proof.
  rewrite leaf_status_kept_unfold, without_staff_only_children, List.length_map.
  intros H. apply andb_true_iff in H. destruct H as [H _].
  destruct (_get_children b) as [|x l]; [reflexivity|].
  change ((length (x :: l) =? 0)%nat) with false in H. rewrite orb_false_l in H.
  apply List.existsb_exists in H. destruct H as (y & Hy & Hns).
  assert (Hin : List.In y (List.filter (fun x => negb (visible_to_staff_only x)) (x :: l))).
  { apply List.filter_In. split; assumption. }
  destruct (List.filter _ (x :: l)); [destruct Hin | reflexivity].
Qed.

Lemma without_staff_only_leaf_blocks unit :
  leaf_status_kept unit = true ->
  _get_leaf_blocks (without_staff_only unit) =
    List.map without_staff_only (_get_leaf_blocks unit).
Proof.
  unfold _get_leaf_blocks. induction unit as [b IH] using XBlock_children_ind.
  intros Hkept. rewrite (traverse_pre_order_unfold _ _ (without_staff_only b)).
  rewrite (traverse_pre_order_unfold _ _ b).
  rewrite (leaf_status_kept_is_leaf b Hkept).
  rewrite List.map_app. f_equal.
  - destruct (length (_get_children b) =? 0)%nat; reflexivity.
  - fold (_get_visible_children (without_staff_only b)).
    change (List.filter visible (_get_children (without_staff_only b)))
      with (_get_visible_children (without_staff_only b)).
    rewrite without_staff_only_visible_children.
    unfold _get_visible_children, _get_all_children. simpl.
    rewrite leaf_status_kept_unfold in Hkept. apply andb_true_iff in Hkept.
    destruct Hkept as [_ Hall]. rewrite List.forallb_forall in Hall.
    assert (Hsub : forall c, List.In c (List.filter visible (_get_children b)) ->
                     List.In c (_get_children b)).
    { intros c Hc. apply List.filter_In in Hc. tauto. }
    induction (List.filter visible (_get_children b)) as [|c l IHl]; [reflexivity|].
    simpl. rewrite List.map_app. f_equal.
    + apply IH; [apply Hsub; left; reflexivity | apply Hall; left; reflexivity].
    + apply IHl; intros x Hx; [apply Hall | apply Hsub]; right; exact Hx.
Qed.

Section Pruning.

Variable get_bool_param : Request -> string -> bool -> bool.

Lemma without_staff_only_visible_subsections request section :
  visible_subsections_of get_bool_param request (without_staff_only section) =
    List.map without_staff_only (visible_subsections_of get_bool_param request section).
Proof.
  unfold visible_subsections_of. rewrite without_staff_only_visible_children.
  destruct (get_bool_param request "exclude_graded" false); [|reflexivity].
  apply filter_map_comm. intros x. rewrite without_staff_only_graded. reflexivity.
Qed.

Lemma without_staff_only_taken_subsections course request :
  taken_subsections get_bool_param (without_staff_only course) request =
    List.map without_staff_only (taken_subsections get_bool_param course request).
Proof.
  unfold taken_subsections, _get_sections.
  change (snd (_get_all_children (without_staff_only course)))
    with (_get_visible_children (without_staff_only course)).
  change (snd (_get_all_children course)) with (_get_visible_children course).
  rewrite without_staff_only_visible_children.
  induction (_get_visible_children course) as [|s l IH]; [reflexivity|].
  simpl. rewrite List.map_app, <- IH, without_staff_only_visible_subsections. reflexivity.
Qed.

Lemma dom_fold_add_unit (l : list XBlock) (d : gmap UsageKey UnitInfo) :
  dom (fold_left add_unit l d) = dom d ∪ list_to_set (List.map location l).
Proof.
  revert d. induction l as [|u l IH]; intros d; simpl.
  - set_solver.
  - rewrite IH. unfold add_unit. rewrite dom_insert_L. set_solver.
Qed.

Lemma map_location_without_staff_only (l : list XBlock) :
  List.map location (List.map without_staff_only l) = List.map location l.
Proof.
  rewrite List.map_map. apply List.map_ext. apply without_staff_only_location.
Qed.

Lemma add_unit_without_staff_only d unit :
  leaf_status_kept unit = true -> add_unit d (without_staff_only unit) = add_unit d unit.
Proof.
  intros Hkept. unfold add_unit.
  rewrite without_staff_only_leaf_blocks by exact Hkept.
  rewrite without_staff_only_location, List.length_map.
  rewrite List.map_map.
  rewrite (List.map_ext (fun x => block_type (location (without_staff_only x)))
             (fun block => block_type (location block)))
    by (intros x; rewrite without_staff_only_location; reflexivity).
  reflexivity.
Qed.

Lemma fold_add_unit_without_staff_only (l : list XBlock) d :
  (forall u, List.In u l -> leaf_status_kept u = true) ->
  fold_left add_unit (List.map without_staff_only l) d = fold_left add_unit l d.
Proof.
  revert d. induction l as [|u l IH]; intros d Hall; [reflexivity|]. simpl.
  rewrite add_unit_without_staff_only by (apply Hall; left; reflexivity).
  apply IH. intros x Hx. apply Hall. right. exact Hx.
Qed.

Lemma fold_add_subsection_without_staff_only (l : list XBlock) d :
  (forall s u, List.In s l -> List.In u (_get_visible_children s) ->
     leaf_status_kept u = true) ->
  fold_left add_subsection (List.map without_staff_only l) d = fold_left add_subsection l d.
Proof.
  revert d. induction l as [|s l IH]; intros d Hall; [reflexivity|]. simpl.
  rewrite IH by (intros x u Hx; apply Hall; right; exact Hx). f_equal.
  unfold add_subsection. rewrite without_staff_only_location.
  rewrite without_staff_only_visible_children.
  rewrite fold_add_unit_without_staff_only; [reflexivity|].
  intros u Hu. apply (Hall s u); [left; reflexivity | exact Hu].
Qed.

(** The keys of the subsection dictionary with, for each, the keys of its
    unit dictionary. *)
Lemma shape_fold_add_subsection (l : list XBlock)
  (d d' : gmap UsageKey (gmap UsageKey UnitInfo)) :
  dom <$> d = (dom <$> d' : gmap UsageKey (gset UsageKey)) ->
  dom <$> fold_left add_subsection (List.map without_staff_only l) d =
    (dom <$> fold_left add_subsection l d' : gmap UsageKey (gset UsageKey)).
Proof.
  revert d d'. induction l as [|s l IH]; intros d d' Hd; [exact Hd|]. simpl.
  apply IH. unfold add_subsection. rewrite !fmap_insert, Hd.
  rewrite without_staff_only_location, without_staff_only_visible_children.
  rewrite !dom_fold_add_unit, map_location_without_staff_only. reflexivity.
Qed.

End Pruning.

Lemma itervalues_fmap {A B : Type} (f : A -> B) (m : gmap UsageKey A) :
  itervalues (f <$> m) = f <$> itervalues m.
Proof.
  unfold itervalues. rewrite map_to_list_fmap, <- !list_fmap_compose. reflexivity.
Qed.

Lemma itervalues_length {A : Type} (m : gmap UsageKey A) : length (itervalues m) = size m.
Proof. unfold itervalues. rewrite length_fmap. apply length_map_to_list. Qed.

Lemma length_bind_singleton {A B : Type} (f : A -> B) (l : list A) :
  length (x ← l; [f x]) = length l.
Proof.
  induction l as [|x l IH]; [reflexivity|].
  change (length (f x :: (y ← l; [f y])) = S (length l)). simpl. f_equal. exact IH.
Qed.

Lemma length_bind_sum {A B : Type} (f : A -> list B) (l : list A) :
  length (l ≫= f) = sum_list (length ∘ f <$> l).
Proof.
  induction l as [|x l IH]; [reflexivity|].
  change (length (f x ++ (l ≫= f)) = (length (f x) + sum_list (length ∘ f <$> l))%nat).
  rewrite length_app, IH. reflexivity.
Qed.

Section Shape.

Variable get_bool_param : Request -> string -> bool -> bool.

Lemma units_total_visible_shape course request :
  units_total_visible (_units_quality get_bool_param course request) =
    sum_list (size <$> itervalues
                (dom <$> _get_subsections_and_units get_bool_param course request
                 : gmap UsageKey (gset UsageKey))).
Proof.
  unfold _units_quality. simpl. rewrite length_bind_sum, itervalues_fmap.
  rewrite <- list_fmap_compose. f_equal. apply list_fmap_ext. intros _ ud _. simpl.
  rewrite length_bind_singleton, itervalues_length. symmetry. apply size_dom.
Qed.

Lemma subsections_total_visible_shape course request :
  subsections_total_visible (_subsections_quality get_bool_param course request) =
    size (dom <$> _get_subsections_and_units get_bool_param course request
          : gmap UsageKey (gset UsageKey)).
Proof.
  unfold _subsections_quality, num_block_types_per_subsection_dict. simpl.
  rewrite !map_size_fmap. reflexivity.
Qed.

End Shape.

Lemma sections_visible_without_staff_only course :
  sections_total_visible (_sections_quality (without_staff_only course)) =
    sections_total_visible (_sections_quality course)
  /\ sections_number_with_highlights (_sections_quality (without_staff_only course)) =
       sections_number_with_highlights (_sections_quality course).
Proof.
  unfold _sections_quality, _get_sections. simpl.
  change (List.filter visible (_get_children (without_staff_only course)))
    with (_get_visible_children (without_staff_only course)).
  change (List.filter visible (_get_children course)) with (_get_visible_children course).
  rewrite without_staff_only_visible_children. split.
  - apply List.length_map.
  - rewrite (filter_map_comm without_staff_only _
               (fun s => negb (length (highlights s) =? 0)%nat))
      by (intros x; rewrite without_staff_only_highlights; reflexivity).
    apply List.length_map.
Qed.

Lemma shape_without_staff_only get_bool_param course request :
  dom <$> _get_subsections_and_units get_bool_param (without_staff_only course) request =
    (dom <$> _get_subsections_and_units get_bool_param course request
     : gmap UsageKey (gset UsageKey)).
Proof.
  rewrite !subsections_and_units_fold, without_staff_only_taken_subsections.
  apply shape_fold_add_subsection. reflexivity.
Qed.

Lemma subsections_and_units_without_staff_only get_bool_param course request :
  units_keep_leaf_status course ->
  _get_subsections_and_units get_bool_param (without_staff_only course) request =
    _get_subsections_and_units get_bool_param course request.
Proof.
  intros Hkept.
  rewrite !subsections_and_units_fold, without_staff_only_taken_subsections.
  apply fold_add_subsection_without_staff_only.
  intros s u Hs Hu. apply taken_subsections_in in Hs.
  destruct Hs as (section & H1 & H2 & H3 & H4 & _).
  unfold _get_visible_children, _get_all_children in Hu. simpl in Hu.
  apply List.filter_In in Hu. destruct Hu as [Hu Hv].
  exact (Hkept section s u H1 H2 H3 H4 Hu Hv).
Qed.

(** C1 as stated fails: [sections.total_number] and the video counts apply
    no visibility filter.  The staff-only section of the sample course, and
    the video block under it, are counted. *)
Lemma staff_only_blocks_are_counted :
  visible_to_staff_only Samples.staff_section = true
  /\ List.In Samples.staff_section (_get_children Samples.course1)
  /\ sections_total_number (_sections_quality Samples.course1) = 2%nat
  /\ sections_total_number (_sections_quality (without_staff_only Samples.course1)) = 1%nat
  /\ videos_total_number
       (_videos_quality (Samples.env_of Samples.course1 []) Samples.course1) = 3%nat
  /\ videos_total_number
       (_videos_quality (Samples.env_of (without_staff_only Samples.course1) [])
          (without_staff_only Samples.course1)) = 2%nat.
Proof.
  split; [reflexivity|]. split; [right; left; reflexivity|].
  repeat split; vm_compute; reflexivity.
Qed.

(** C1, amended: a block with [visible_to_staff_only] set never appears in
    a [total_visible] count: removing every such block, at any depth, leaves
    [sections.total_visible], [sections.number_with_highlights],
    [subsections.total_visible] and [units.total_visible] unchanged; and it
    leaves the whole of the subsections and units reports unchanged when no
    block visited from a unit has only staff-only children.
    ([sections.total_number] and the video counts do count such blocks.) *)
Theorem staff_only_blocks_not_visible
  (get_bool_param : Request -> string -> bool -> bool) (course : XBlock) (request : Request) :
  let pruned := without_staff_only course in
  sections_total_visible (_sections_quality pruned) =
    sections_total_visible (_sections_quality course)
  /\ sections_number_with_highlights (_sections_quality pruned) =
       sections_number_with_highlights (_sections_quality course)
  /\ subsections_total_visible (_subsections_quality get_bool_param pruned request) =
       subsections_total_visible (_subsections_quality get_bool_param course request)
  /\ units_total_visible (_units_quality get_bool_param pruned request) =
       units_total_visible (_units_quality get_bool_param course request)
  /\ (units_keep_leaf_status course ->
      _subsections_quality get_bool_param pruned request =
        _subsections_quality get_bool_param course request
      /\ _units_quality get_bool_param pruned request =
           _units_quality get_bool_param course request).
Proof.
  intros pruned. subst pruned.
  destruct (sections_visible_without_staff_only course) as [H1 H2].
  split; [exact H1|]. split; [exact H2|]. split; [|split].
  - rewrite !subsections_total_visible_shape, shape_without_staff_only. reflexivity.
  - rewrite !units_total_visible_shape, shape_without_staff_only. reflexivity.
  - intros Hkept.
    unfold _subsections_quality, num_block_types_per_subsection_dict, _units_quality.
    rewrite (subsections_and_units_without_staff_only _ _ _ Hkept). split; reflexivity.
Qed.

Lemma staff_only_blocks_not_visible_witness :
  sections_total_visible (_sections_quality (without_staff_only Samples.course1)) =
    sections_total_visible (_sections_quality Samples.course1)
  /\ _subsections_quality Utils.get_bool_param (without_staff_only Samples.course1)
       Samples.request_all =
     _subsections_quality Utils.get_bool_param Samples.course1 Samples.request_all
  /\ _units_quality Utils.get_bool_param (without_staff_only Samples.course1)
       Samples.request_all =
     _units_quality Utils.get_bool_param Samples.course1 Samples.request_all.
Proof.
  destruct (staff_only_blocks_not_visible Utils.get_bool_param Samples.course1
              Samples.request_all) as (H1 & _ & _ & _ & H5).
  split; [exact H1|]. apply H5.
  intros section subsection unit Hsec _ Hsub _ Hunit _.
  destruct Hsec as [<-|[<-|[]]].
  - destruct Hsub as [<-|[]]. destruct Hunit as [<-|[<-|[]]]; reflexivity.
  - destruct Hsub as [<-|[]]. destruct Hunit as [<-|[]]; reflexivity.
Defined.

(** Why the last part of C1 needs its condition: a unit whose only child is
    staff-only has no leaf block, but is a leaf itself once the child is
    removed. *)
Example staff_only_child_decides_leaf_status :
  leaf_status_kept Samples.unit_staff_child = false
  /\ st_max (units_num_blocks
               (_units_quality Utils.get_bool_param Samples.course_staff_child
                  Samples.request_all)) = Some 0
  /\ st_max (units_num_blocks
               (_units_quality Utils.get_bool_param
                  (without_staff_only Samples.course_staff_child)
                  Samples.request_all)) = Some 1.
Proof. repeat split; vm_compute; reflexivity. Qed.

(** The scenario of the specification: two sections, one of them hidden,
    one subsection with two units holding two videos and one html block. *)
Example specification_scenario :
  _sections_quality Samples.course1 =
    {| sections_total_number := 2; sections_total_visible := 1;
       sections_number_with_highlights := 0; sections_highlights_enabled := false |}
  /\ _subsections_quality Utils.get_bool_param Samples.course1 Samples.request_all =
       {| subsections_total_visible := 1; subsections_num_with_one_block_type := 0;
          subsections_num_block_types :=
            mkStats (Some 2) (Some 2) (Some 2%Z) (Some 2%Z) (Some 2) |}
  /\ _units_quality Utils.get_bool_param Samples.course1 Samples.request_all =
       {| units_total_visible := 2;
          units_num_blocks := mkStats (Some 1) (Some 2) (Some 2%Z) (Some 2%Z) (Some 1) |}.
Proof. repeat split; vm_compute; reflexivity. Qed.

(** * Further properties *)

(** ** Statistics and the order of the data *)

Section StatisticsOrder.

Import Numpy Scipy.

Lemma np_around_comp x y : x == y -> np_around x = np_around y.
Proof.
  intros Hxy. unfold np_around. rewrite (Qfloor_comp x y Hxy).
  rewrite (Qcompare_comp (x - inject_Z (Qfloor y)) (y - inject_Z (Qfloor y))
             ltac:(rewrite Hxy; reflexivity) (1 # 2) (1 # 2) ltac:(reflexivity)).
  reflexivity.
Qed.

Lemma np_sum_Forall2 l1 l2 : Forall2 Qeq l1 l2 -> np_sum l1 == np_sum l2.
Proof.
  induction 1 as [|x y l1 l2 Hxy _ IH]; simpl; [reflexivity|]. rewrite Hxy, IH. reflexivity.
Qed.

Lemma np_mean_Forall2 l1 l2 : Forall2 Qeq l1 l2 -> np_mean l1 == np_mean l2.
Proof.
  intros H. unfold np_mean. rewrite (np_sum_Forall2 _ _ H).
  rewrite (Forall2_length _ _ _ H). reflexivity.
Qed.

Lemma np_sum_Permutation l1 l2 : Permutation l1 l2 -> np_sum l1 == np_sum l2.
Proof.
  induction 1 as [|x l l' _ IH|x y l|l l' l'' _ IH1 _ IH2]; simpl.
  - reflexivity.
  - rewrite IH. reflexivity.
  - ring.
  - rewrite IH1. exact IH2.
Qed.

Lemma Forall2_Qeq_refl l : Forall2 Qeq l l.
Proof. induction l; constructor; [reflexivity | assumption]. Qed.

Lemma Forall2_Qeq_trans l1 l2 l3 :
  Forall2 Qeq l1 l2 -> Forall2 Qeq l2 l3 -> Forall2 Qeq l1 l3.
Proof.
  intros H. revert l3. induction H as [|x y l1 l2 Hxy _ IH]; intros l3 H3.
  - inversion H3. constructor.
  - inversion H3 as [|y' z l2' l3' Hyz H3' E1 E2]; subst. constructor.
    + rewrite Hxy. exact Hyz.
    + apply IH. exact H3'.
Qed.

Lemma Forall2_Qeq_move x a b :
  List.Forall (Qeq x) a -> Forall2 Qeq (x :: a ++ b) (a ++ x :: b).
Proof.
  induction a as [|a0 a IH]; intros Ha.
  - apply Forall2_Qeq_refl.
  - apply List.Forall_cons_iff in Ha. destruct Ha as [Ha0 Ha].
    simpl. constructor; [exact Ha0|].
    apply (Forall2_Qeq_trans _ (x :: a ++ b)).
    + constructor; [symmetry; exact Ha0 | apply Forall2_Qeq_refl].
    + apply IH. exact Ha.
Qed.

Lemma StronglySorted_app_inv a x b :
  StronglySorted Qle (a ++ x :: b) ->
  StronglySorted Qle (a ++ b) /\ List.Forall (fun y => y <= x) a.
Proof.
  induction a as [|a0 a IH]; simpl; intros Hs.
  - apply StronglySorted_inv in Hs. split; [tauto | constructor].
  - apply StronglySorted_inv in Hs. destruct Hs as [Hs Hall].
    destruct (IH Hs) as [Hs' Hle]. split.
    + constructor; [exact Hs'|]. rewrite List.Forall_app in Hall |- *.
      destruct Hall as [H1 H2]. apply List.Forall_cons_iff in H2. tauto.
    + constructor; [|exact Hle]. rewrite List.Forall_app in Hall.
      destruct Hall as [_ H2]. apply List.Forall_cons_iff in H2. tauto.
Qed.

Lemma sorted_Permutation_Forall2 l1 l2 :
  StronglySorted Qle l1 -> StronglySorted Qle l2 -> Permutation l1 l2 ->
  Forall2 Qeq l1 l2.
Proof.
  revert l2. induction l1 as [|x l1 IH]; intros l2 Hs1 Hs2 Hp.
  - apply Permutation_nil in Hp. subst. constructor.
  - assert (Hx : List.In x l2) by (eapply Permutation_in; [exact Hp | left; reflexivity]).
    apply List.in_split in Hx. destruct Hx as (a & b & ->).
    apply Permutation_cons_app_inv in Hp.
    apply StronglySorted_inv in Hs1. destruct Hs1 as [Hs1 Hmin].
    destruct (StronglySorted_app_inv a x b Hs2) as [Hs2' Hle].
    apply (Forall2_Qeq_trans _ (x :: a ++ b)).
    + constructor; [reflexivity|]. apply IH; assumption.
    + apply Forall2_Qeq_move. rewrite List.Forall_forall in Hmin, Hle |- *.
      intros y Hy. apply Qle_antisym.
      * apply Hmin. eapply Permutation_in; [apply Permutation_sym, Hp|].
        apply List.in_or_app. left. exact Hy.
      * apply Hle. exact Hy.
Qed.

Lemma Forall2_firstn {A B} (R : A -> B -> Prop) n l1 l2 :
  Forall2 R l1 l2 -> Forall2 R (firstn n l1) (firstn n l2).
Proof.
  intros H. revert n. induction H; intros [|n]; simpl; constructor; auto.
Qed.

Lemma Forall2_skipn {A B} (R : A -> B -> Prop) n l1 l2 :
  Forall2 R l1 l2 -> Forall2 R (skipn n l1) (skipn n l2).
Proof.
  intros H. revert n. induction H; intros [|n]; simpl; try constructor; auto.
Qed.

Lemma np_median_Permutation a b : Permutation a b -> np_median a == np_median b.
Proof.
  intros Hp. unfold np_median. rewrite (Permutation_length Hp).
  assert (Hs : Forall2 Qeq (np_sort a) (np_sort b)).
  { apply sorted_Permutation_Forall2; try apply np_sort_sorted.
    unfold np_sort. eapply Permutation_trans; [apply Permutation_sym, QSort.Permuted_sort|].
    eapply Permutation_trans; [exact Hp | apply QSort.Permuted_sort]. }
  destruct (Nat.even (length b)); apply np_mean_Forall2, Forall2_firstn, Forall2_skipn, Hs.
Qed.

Lemma np_mean_Permutation a b : Permutation a b -> np_mean a == np_mean b.
Proof.
  intros Hp. unfold np_mean. rewrite (np_sum_Permutation _ _ Hp), (Permutation_length Hp).
  reflexivity.
Qed.

Lemma count_eq_Permutation x a b : Permutation a b -> count_eq x a = count_eq x b.
Proof. intros Hp. unfold count_eq. apply filter_length_Permutation. exact Hp. Qed.

Lemma mode_Permutation a b : a <> [] -> Permutation a b -> fst (mode a) == fst (mode b).
Proof.
  intros Hne Hp.
  assert (Hneb : b <> []).
  { intros ->. apply Permutation_sym, Permutation_nil in Hp. contradiction. }
  destruct (mode_spec a Hne) as (Hin & Hmax & Htie).
  destruct (mode_spec b Hneb) as (Hin' & Hmax' & Htie').
  set (m := fst (mode a)) in *. set (m' := fst (mode b)) in *.
  assert (Hma : List.In m b) by (eapply Permutation_in; eassumption).
  assert (Hmb : List.In m' a) by (eapply Permutation_in; [apply Permutation_sym|]; eassumption).
  pose proof (Hmax m' Hmb) as H1. pose proof (Hmax' m Hma) as H2.
  rewrite (count_eq_Permutation m' a b Hp), (count_eq_Permutation m a b Hp) in H1.
  assert (Heq : count_eq m b = count_eq m' b) by lia.
  apply Qle_antisym.
  - apply Htie; [exact Hmb|]. rewrite !(count_eq_Permutation _ a b Hp). symmetry. exact Heq.
  - apply Htie'; [exact Hma | exact Heq].
Qed.

Lemma py_min_max_Permutation x l y l' :
  Permutation (x :: l) (y :: l') ->
  py_min_from x l == py_min_from y l' /\ py_max_from x l == py_max_from y l'.
Proof.
  intros Hp.
  pose proof (py_min_from_in x l) as Hi1. pose proof (py_min_from_in y l') as Hi2.
  pose proof (py_max_from_in x l) as Ha1. pose proof (py_max_from_in y l') as Ha2.
  destruct (py_min_from_le x l) as [Hm1 Hm2]. destruct (py_min_from_le y l') as [Hm3 Hm4].
  destruct (py_max_from_ge x l) as [Hx1 Hx2]. destruct (py_max_from_ge y l') as [Hx3 Hx4].
  assert (Hlo1 : forall z, List.In z (x :: l) -> py_min_from x l <= z).
  { intros z [<-|Hz]; [exact Hm1 | exact (Hm2 z Hz)]. }
  assert (Hlo2 : forall z, List.In z (y :: l') -> py_min_from y l' <= z).
  { intros z [<-|Hz]; [exact Hm3 | exact (Hm4 z Hz)]. }
  assert (Hhi1 : forall z, List.In z (x :: l) -> z <= py_max_from x l).
  { intros z [<-|Hz]; [exact Hx1 | exact (Hx2 z Hz)]. }
  assert (Hhi2 : forall z, List.In z (y :: l') -> z <= py_max_from y l').
  { intros z [<-|Hz]; [exact Hx3 | exact (Hx4 z Hz)]. }
  assert (Hto : forall z, List.In z (x :: l) -> List.In z (y :: l')).
  { intros z Hz. eapply Permutation_in; [exact Hp | exact Hz]. }
  assert (Hfrom : forall z, List.In z (y :: l') -> List.In z (x :: l)).
  { intros z Hz. eapply Permutation_in; [apply Permutation_sym, Hp | exact Hz]. }
  split; apply Qle_antisym; auto.
Qed.

Lemma stats_dict_perm (data data' : list Q) :
  Permutation data data' -> stats_equiv (_stats_dict data) (_stats_dict data').
Proof.
  intros Hp. destruct data as [|x l], data' as [|y l'].
  - repeat split.
  - apply Permutation_nil in Hp. discriminate.
  - apply Permutation_sym, Permutation_nil in Hp. discriminate.
  - destruct (py_min_max_Permutation x l y l' Hp) as [Hmin Hmax].
    unfold stats_equiv. simpl. split; [exact Hmin|]. split; [exact Hmax|].
    split; [f_equal; apply np_around_comp, np_mean_Permutation, Hp|].
    split; [f_equal; apply np_around_comp, np_median_Permutation, Hp|].
    apply mode_Permutation; [discriminate | exact Hp].
Qed.

End StatisticsOrder.



(** ** Range of the statistics *)

(** X2: for non-empty data, [min] and [max] are values of the data and
    bound every value; [mode] lies between them, and [mean] between the
    floor of [min] and the ceiling of [max]. *)
Theorem stats_min_max_exact (data : list Q) :
  data <> [] ->
  exists (mn mx md : Q) (mean : Z),
    st_min (_stats_dict data) = Some mn
    /\ st_max (_stats_dict data) = Some mx
    /\ st_mode (_stats_dict data) = Some md
    /\ st_mean (_stats_dict data) = Some mean
    /\ List.In mn data /\ List.In mx data
    /\ (forall x, List.In x data -> mn <= x <= mx)
    /\ mn <= md <= mx
    /\ (Qfloor mn <= mean <= Qceiling mx)%Z.
Proof.
  intros Hne. destruct data as [|x data]; [congruence|].
  set (mn := py_min_from x data). set (mx := py_max_from x data).
  exists mn, mx, (fst (Scipy.mode (x :: data))),
         (Numpy.np_around (Numpy.np_mean (x :: data))).
  do 4 (split; [reflexivity|]).
  assert (Hrange : forall y, List.In y (x :: data) -> mn <= y <= mx).
  { intros y Hy. destruct (py_min_from_le x data) as [H1 H2].
    destruct (py_max_from_ge x data) as [H3 H4].
    destruct Hy as [<-|Hy]; split;
      [exact H1 | exact H3 | exact (H2 y Hy) | exact (H4 y Hy)]. }
  split; [apply py_min_from_in|]. split; [apply py_max_from_in|].
  split; [exact Hrange|]. split.
  - apply Hrange. apply (mode_spec (x :: data)). discriminate.
  - assert (Hmean : mn <= Numpy.np_mean (x :: data) <= mx)
      by (apply np_mean_bounds; [discriminate | exact Hrange]).
    pose proof (np_around_floor_ceiling (Numpy.np_mean (x :: data))) as [H1 H2].
    pose proof (Qfloor_resp_le _ _ (proj1 Hmean)) as H3.
    pose proof (Qceiling_resp_le _ _ (proj2 Hmean)) as H4. lia.
Qed.

Lemma stats_min_max_exact_witness :
  exists (mn mx md : Q) (mean : Z),
    st_min (_stats_dict Samples.tied_counts) = Some mn
    /\ st_max (_stats_dict Samples.tied_counts) = Some mx
    /\ st_mode (_stats_dict Samples.tied_counts) = Some md
    /\ st_mean (_stats_dict Samples.tied_counts) = Some mean
    /\ List.In mn Samples.tied_counts /\ List.In mx Samples.tied_counts
    /\ (forall x, List.In x Samples.tied_counts -> mn <= x <= mx)
    /\ mn <= md <= mx
    /\ (Qfloor mn <= mean <= Qceiling mx)%Z.
Proof.
  apply (stats_min_max_exact Samples.tied_counts). discriminate.
Defined.

(** ** Empty data *)

Lemma stats_dict_none_iff (data : list Q) :
  _stats_dict data = mkStats None None None None None <-> data = [].
Proof.
  split; [|intros ->; reflexivity].
  destruct data; [reflexivity | discriminate].
Qed.

(** X3: in each part of the report the statistics are all [None] exactly
    when the count beside them is zero: no visible subsection, no visible
    unit, no record of the video metadata service. *)
Theorem empty_statistics_iff_zero_count
  (get_bool_param : Request -> string -> bool -> bool) (env : Env)
  (course : XBlock) (request : Request) :
  (subsections_total_visible (_subsections_quality get_bool_param course request) = 0%nat
   <-> subsections_num_block_types (_subsections_quality get_bool_param course request)
       = mkStats None None None None None)
  /\ (units_total_visible (_units_quality get_bool_param course request) = 0%nat
      <-> units_num_blocks (_units_quality get_bool_param course request)
          = mkStats None None None None None)
  /\ (videos_num_mobile_encoded (_videos_quality env course) = 0%nat
      <-> videos_durations (_videos_quality env course)
          = mkStats None None None None None).
Proof.
  split; [|split].
  - unfold _subsections_quality. simpl. rewrite stats_dict_none_iff.
    rewrite <- itervalues_length.
    destruct (itervalues _); simpl; split; congruence.
  - unfold _units_quality. simpl. rewrite stats_dict_none_iff.
    destruct (_ ≫= _); simpl; split; congruence.
  - unfold _videos_quality. simpl. rewrite stats_dict_none_iff.
    destruct (get_videos_for_course env (course_id course)); simpl; split; congruence.
Qed.

(** ** Sections *)

(** X4: the section counts are ordered: sections with highlights are among
    the visible sections, which are among all the sections of the course. *)
Theorem sections_counts_ordered (course : XBlock) :
  (sections_number_with_highlights (_sections_quality course)
   <= sections_total_visible (_sections_quality course)
   <= sections_total_number (_sections_quality course))%nat.
Proof.
  unfold _sections_quality, _get_sections, _get_all_children. simpl.
  split; apply List.filter_length_le.
Qed.

(** X5: a course without sections (no [children] attribute, or an empty
    one) is no error: every count of the sections, subsections and units
    parts is zero and their statistics are all [None]. *)
Theorem course_without_sections
  (get_bool_param : Request -> string -> bool -> bool) (course : XBlock) (request : Request) :
  _get_children course = [] ->
  _sections_quality course =
    {| sections_total_number := 0; sections_total_visible := 0;
       sections_number_with_highlights := 0;
       sections_highlights_enabled := highlights_enabled_for_messaging course |}
  /\ _subsections_quality get_bool_param course request =
       {| subsections_total_visible := 0; subsections_num_with_one_block_type := 0;
          subsections_num_block_types := mkStats None None None None None |}
  /\ _units_quality get_bool_param course request =
       {| units_total_visible := 0;
          units_num_blocks := mkStats None None None None None |}.
Proof.
  intros Hnone.
  assert (Hdict : _get_subsections_and_units get_bool_param course request = ∅).
  { unfold _get_subsections_and_units, _get_sections, _get_all_children.
    rewrite Hnone. reflexivity. }
  split; [|split].
  - unfold _sections_quality, _get_sections, _get_all_children. rewrite Hnone. reflexivity.
  - unfold _subsections_quality, num_block_types_per_subsection_dict.
    rewrite Hdict. reflexivity.
  - unfold _units_quality. rewrite Hdict. reflexivity.
Qed.

Lemma course_without_sections_witness :
  _sections_quality (Samples.blk "course" "course" None false) =
    {| sections_total_number := 0; sections_total_visible := 0;
       sections_number_with_highlights := 0; sections_highlights_enabled := false |}
  /\ _subsections_quality Utils.get_bool_param (Samples.blk "course" "course" None false)
       Samples.request_all =
       {| subsections_total_visible := 0; subsections_num_with_one_block_type := 0;
          subsections_num_block_types := mkStats None None None None None |}
  /\ _units_quality Utils.get_bool_param (Samples.blk "course" "course" None false)
       Samples.request_all =
       {| units_total_visible := 0;
          units_num_blocks := mkStats None None None None None |}.
Proof.
  apply (course_without_sections Utils.get_bool_param
           (Samples.blk "course" "course" None false) Samples.request_all).
  reflexivity.
Defined.

(** ** The subsection and unit dictionaries *)

Lemma visible_flags b :
  visible b = true <-> visible_to_staff_only b = false /\ hide_from_toc b = false.
Proof.
  unfold visible. destruct (visible_to_staff_only b), (hide_from_toc b); simpl;
    split; (intros [? ?] || intros ?); try discriminate; auto.
Qed.

Lemma fold_add_subsection_lookup_inv (l : list XBlock)
  (d : gmap UsageKey (gmap UsageKey UnitInfo)) (k : UsageKey) (ud : gmap UsageKey UnitInfo) :
  fold_left add_subsection l d !! k = Some ud ->
  d !! k = Some ud
  \/ exists s, List.In s l /\ location s = k
               /\ ud = fold_left add_unit (_get_visible_children s) ∅.
Proof.
  revert d. induction l as [|s0 l IH]; intros d Hk; [left; exact Hk|].
  simpl in Hk. destruct (IH _ Hk) as [Hd|(s & Hs & Hloc & Hud)].
  - unfold add_subsection in Hd.
    destruct (decide (location s0 = k)) as [Heq|Hne].
    + rewrite Heq, lookup_insert_eq in Hd. right. exists s0.
      split; [left; reflexivity|]. split; [exact Heq | congruence].
    + rewrite lookup_insert_ne in Hd by exact Hne. left. exact Hd.
  - right. exists s. split; [right; exact Hs | split; assumption].
Qed.

(** X6: the subsection dictionary has a key exactly for the subsections
    that are neither staff-only nor hidden from the table of contents, in a
    section that is neither, and that are not graded when [exclude_graded]
    is set; and every key of one of its unit dictionaries is the location of
    a unit, neither staff-only nor hidden, of such a subsection. *)
Theorem subsections_and_units_keys
  (get_bool_param : Request -> string -> bool -> bool) (course : XBlock) (request : Request)
  (k : UsageKey) :
  let reported section subsection :=
    List.In section (_get_children course)
    /\ visible_to_staff_only section = false /\ hide_from_toc section = false
    /\ List.In subsection (_get_children section)
    /\ visible_to_staff_only subsection = false /\ hide_from_toc subsection = false
    /\ (get_bool_param request "exclude_graded" false = true -> graded subsection = false)
    /\ location subsection = k in
  (k ∈ dom (_get_subsections_and_units get_bool_param course request)
   <-> exists section subsection, reported section subsection)
  /\ forall unit_dict unit_key,
       _get_subsections_and_units get_bool_param course request !! k = Some unit_dict ->
       unit_key ∈ dom unit_dict ->
       exists section subsection unit,
         reported section subsection
         /\ List.In unit (_get_children subsection)
         /\ visible_to_staff_only unit = false /\ hide_from_toc unit = false
         /\ location unit = unit_key.
Proof.
  intros reported. split.
  - rewrite dom_subsections_and_units, elem_of_list_to_set, list_elem_of_In, List.in_map_iff.
    split.
    + intros (s & Hk & Hs). apply taken_subsections_in in Hs.
      destruct Hs as (section & H1 & H2 & H3 & H4 & H5).
      apply visible_flags in H2, H4. exists section, s. unfold reported. tauto.
    + intros (section & s & H1 & H2 & H3 & H4 & H5 & H6 & H7 & H8).
      exists s. split; [exact H8|]. apply taken_subsections_in. exists section.
      rewrite !visible_flags. tauto.
  - intros unit_dict unit_key Hlookup Hkey.
    rewrite subsections_and_units_fold in Hlookup.
    apply fold_add_subsection_lookup_inv in Hlookup.
    destruct Hlookup as [Hempty|(s & Hs & Hloc & ->)]; [rewrite lookup_empty in Hempty; discriminate|].
    rewrite dom_fold_add_unit in Hkey.
    rewrite elem_of_union, elem_of_list_to_set, list_elem_of_In, List.in_map_iff in Hkey.
    destruct Hkey as [Hkey|(u & Hu & Hin)]; [set_solver|].
    unfold _get_visible_children, _get_all_children in Hin. simpl in Hin.
    apply List.filter_In in Hin. destruct Hin as [Hin Hvis].
    apply taken_subsections_in in Hs. destruct Hs as (section & H1 & H2 & H3 & H4 & H5).
    apply visible_flags in H2, H4, Hvis.
    exists section, s, u. unfold reported. tauto.
Qed.

Lemma subsections_and_units_keys_witness :
  exists section subsection unit,
    List.In section (_get_children Samples.course1)
    /\ List.In subsection (_get_children section)
    /\ List.In unit (_get_children subsection)
    /\ visible_to_staff_only unit = false /\ hide_from_toc unit = false
    /\ location unit = mkUsageKey "vertical" "u2".
Proof.
  destruct (subsections_and_units_keys Utils.get_bool_param Samples.course1
              Samples.request_all (mkUsageKey "sequential" "ss1")) as [_ H].
  destruct (H (fold_left add_unit (_get_visible_children Samples.subsection1) ∅)
              (mkUsageKey "vertical" "u2"))
    as (section & subsection & unit & Hrep & H1 & H2 & H3 & H4).
  - vm_compute. reflexivity.
  - apply (bool_decide_unpack _). vm_compute. exact I.
  - exists section, subsection, unit. tauto.
Defined.

(** ** The report and the blocks of the tree *)

Lemma filter_sublist {A : Type} (p : A -> bool) (l : list A) : List.filter p l `sublist_of` l.
Proof.
  induction l as [|x l IH]; simpl; [constructor|].
  destruct (p x); [apply sublist_skip | apply sublist_cons]; exact IH.
Qed.

Lemma concat_map_sublist {A B : Type} (f g : A -> list B) (l : list A) :
  (forall x, List.In x l -> f x `sublist_of` g x) ->
  List.concat (List.map f l) `sublist_of` List.concat (List.map g l).
Proof.
  induction l as [|x l IH]; intros H; simpl; [constructor|].
  apply sublist_app; [apply H; left; reflexivity|].
  apply IH. intros y Hy. apply H. right. exact Hy.
Qed.

Lemma concat_map_sublist_l {A B : Type} (f : A -> list B) (l l' : list A) :
  l `sublist_of` l' -> List.concat (List.map f l) `sublist_of` List.concat (List.map f l').
Proof.
  induction 1 as [|x l l' _ IH|x l l' _ IH]; simpl.
  - constructor.
  - apply sublist_app; [reflexivity | exact IH].
  - apply sublist_inserts_l. exact IH.
Qed.

Lemma concat_component_sublist {A : Type} (l : list A) (ls : list (list A)) :
  List.In l ls -> l `sublist_of` List.concat ls.
Proof.
  induction ls as [|l0 ls IH]; [intros []|]. intros [<-|H]; simpl.
  - apply sublist_inserts_r. reflexivity.
  - apply sublist_inserts_l. exact (IH H).
Qed.

Lemma children_sublist_all_blocks b :
  _get_children b `sublist_of` all_blocks b.
Proof.
  rewrite all_blocks_unfold. apply sublist_cons.
  induction (_get_children b) as [|x l IH]; simpl; [constructor|].
  change (x :: l) with ([x] ++ l). apply sublist_app; [|exact IH].
  rewrite all_blocks_unfold. apply sublist_skip, sublist_nil_l.
Qed.

Lemma descendants_sublist_all_blocks b :
  List.concat (List.map all_blocks (_get_children b)) `sublist_of` all_blocks b.
Proof. rewrite (all_blocks_unfold b). apply sublist_cons. reflexivity. Qed.

Lemma visible_children_sublist b : _get_visible_children b `sublist_of` all_blocks b.
Proof.
  unfold _get_visible_children, _get_all_children. simpl.
  etrans; [apply filter_sublist | apply children_sublist_all_blocks].
Qed.

Section Taken.

Variable get_bool_param : Request -> string -> bool -> bool.

Lemma visible_subsections_of_sublist request section :
  visible_subsections_of get_bool_param request section `sublist_of` all_blocks section.
Proof.
  unfold visible_subsections_of.
  destruct (get_bool_param request "exclude_graded" false).
  - etrans; [apply filter_sublist | apply visible_children_sublist].
  - apply visible_children_sublist.
Qed.

Lemma taken_subsections_sublist course request :
  taken_subsections get_bool_param course request `sublist_of` all_blocks course.
Proof.
  unfold taken_subsections, _get_sections, _get_all_children. simpl.
  etrans; [|apply descendants_sublist_all_blocks].
  etrans; [apply concat_map_sublist_l, filter_sublist|].
  apply concat_map_sublist. intros x _. apply visible_subsections_of_sublist.
Qed.

Lemma concat_map_concat {A B : Type} (f : A -> list B) (ls : list (list A)) :
  List.concat (List.map f (List.concat ls)) =
  List.concat (List.map (fun l => List.concat (List.map f l)) ls).
Proof.
  induction ls as [|l ls IH]; simpl; [reflexivity|].
  rewrite List.map_app, List.concat_app, IH. reflexivity.
Qed.

Lemma taken_units_sublist course request :
  taken_units get_bool_param course request `sublist_of` all_blocks course.
Proof.
  unfold taken_units, taken_subsections, _get_sections, _get_all_children. simpl.
  rewrite concat_map_concat, List.map_map.
  etrans; [|apply descendants_sublist_all_blocks].
  etrans; [apply concat_map_sublist_l, filter_sublist|].
  apply concat_map_sublist. intros section _.
  etrans; [|apply descendants_sublist_all_blocks].
  etrans; [apply concat_map_sublist_l|].
  { unfold visible_subsections_of.
    destruct (get_bool_param request "exclude_graded" false).
    - etrans; [apply filter_sublist | apply filter_sublist].
    - apply filter_sublist. }
  apply concat_map_sublist. intros s _. apply visible_children_sublist.
Qed.

Lemma NoDup_map_sublist (l l' : list XBlock) :
  l `sublist_of` l' -> List.NoDup (List.map location l') -> List.NoDup (List.map location l).
Proof.
  intros Hsub Hnd. apply NoDup_ListNoDup. apply NoDup_ListNoDup in Hnd.
  eapply sublist_NoDup; [exact Hnd|].
  change (location <$> l `sublist_of` location <$> l'). apply fmap_sublist. exact Hsub.
Qed.

Lemma unique_taken_subsections course request :
  unique_locations course ->
  List.NoDup (List.map location (taken_subsections get_bool_param course request)).
Proof. apply NoDup_map_sublist, taken_subsections_sublist. Qed.

Lemma unique_taken_units course request :
  unique_locations course ->
  List.NoDup (List.map location (taken_units get_bool_param course request)).
Proof. apply NoDup_map_sublist, taken_units_sublist. Qed.

Lemma unique_visible_units course request s :
  unique_locations course ->
  List.In s (taken_subsections get_bool_param course request) ->
  List.NoDup (List.map location (_get_visible_children s)).
Proof.
  intros Hu Hs. eapply NoDup_map_sublist; [|apply (unique_taken_units course request Hu)].
  unfold taken_units. apply concat_component_sublist. apply List.in_map. exact Hs.
Qed.

End Taken.

(** A dictionary filled from a list with distinct keys holds one value per
    element of the list. *)
Lemma fold_insert_values {A V : Type} (key : A -> UsageKey) (val : A -> V)
  (l : list A) (d : gmap UsageKey V) :
  List.NoDup (List.map key l) ->
  (forall x, List.In x l -> d !! key x = None) ->
  Permutation (itervalues (fold_left (fun d x => <[key x := val x]> d) l d))
              (itervalues d ++ List.map val l).
Proof.
  revert d. induction l as [|x l IH]; intros d Hnd Hfresh; simpl.
  - rewrite List.app_nil_r. reflexivity.
  - simpl in Hnd. apply List.NoDup_cons_iff in Hnd. destruct Hnd as [Hx Hnd].
    rewrite IH; [|exact Hnd|].
    + unfold itervalues.
      rewrite (map_to_list_insert d (key x) (val x)) by (apply Hfresh; left; reflexivity).
      simpl. apply Permutation_middle.
    + intros y Hy. rewrite lookup_insert_ne.
      * apply Hfresh. right. exact Hy.
      * intros Heq. apply Hx. rewrite Heq. apply List.in_map. exact Hy.
Qed.

Lemma unit_dict_values (units_ : list XBlock) :
  List.NoDup (List.map location units_) ->
  Permutation (itervalues (fold_left add_unit units_ ∅)) (List.map unit_info_of units_).
Proof.
  intros Hnd.
  pose proof (fold_insert_values location unit_info_of units_ ∅ Hnd
                (fun x _ => lookup_empty _)) as H.
  unfold itervalues in H at 2. rewrite map_to_list_empty in H. exact H.
Qed.

Lemma subsection_dict_values (l : list XBlock) :
  List.NoDup (List.map location l) ->
  Permutation (itervalues (fold_left add_subsection l ∅))
              (List.map (fun s => fold_left add_unit (_get_visible_children s) ∅) l).
Proof.
  intros Hnd.
  pose proof (fold_insert_values location
                (fun s => fold_left add_unit (_get_visible_children s) ∅) l ∅ Hnd
                (fun x _ => lookup_empty _)) as H.
  unfold itervalues in H at 2. rewrite map_to_list_empty in H. exact H.
Qed.

Lemma num_block_types_unit_dict (s : XBlock) :
  List.NoDup (List.map location (_get_visible_children s)) ->
  num_block_types (fold_left add_unit (_get_visible_children s) ∅) = size (block_types_of s).
Proof.
  intros Hnd. unfold num_block_types, block_types_of. f_equal.
  rewrite (unit_dict_values _ Hnd).
  change (List.map unit_info_of (_get_visible_children s))
    with (unit_info_of <$> _get_visible_children s).
  rewrite <- list_fmap_compose. reflexivity.
Qed.

Lemma bind_ext_Permutation {A B : Type} (f g : A -> list B) (l : list A) :
  (forall x, List.In x l -> Permutation (f x) (g x)) -> Permutation (l ≫= f) (l ≫= g).
Proof.
  induction l as [|x l IH]; intros H; [reflexivity|].
  change (Permutation (f x ++ (l ≫= f)) (g x ++ (l ≫= g))).
  apply Permutation_app; [apply H; left; reflexivity|].
  apply IH. intros y Hy. apply H. right. exact Hy.
Qed.

Lemma bind_map_concat {A B C : Type} (h : A -> C) (f : C -> list B) (l : list A) :
  List.map h l ≫= f = List.concat (List.map (fun x => f (h x)) l).
Proof.
  induction l as [|x l IH]; [reflexivity|].
  change (f (h x) ++ (List.map h l ≫= f) = f (h x) ++ List.concat (List.map (fun x => f (h x)) l)).
  rewrite IH. reflexivity.
Qed.

Lemma bind_singleton_map {A B : Type} (f : A -> B) (l : list A) :
  (x ← l; [f x]) = List.map f l.
Proof.
  induction l as [|x l IH]; [reflexivity|].
  change (f x :: (y ← l; [f y]) = f x :: List.map f l). rewrite IH. reflexivity.
Qed.

Lemma concat_map_map {A B C : Type} (f : B -> C) (g : A -> list B) (l : list A) :
  List.concat (List.map (fun x => List.map f (g x)) l) = List.map f (List.concat (List.map g l)).
Proof.
  induction l as [|x l IH]; simpl; [reflexivity|]. rewrite List.map_app, IH. reflexivity.
Qed.

Lemma concat_map_Permutation {A B : Type} (f g : A -> list B) (l : list A) :
  (forall x, List.In x l -> Permutation (f x) (g x)) ->
  Permutation (List.concat (List.map f l)) (List.concat (List.map g l)).
Proof.
  induction l as [|x l IH]; intros H; simpl; [reflexivity|].
  apply Permutation_app; [apply H; left; reflexivity|].
  apply IH. intros y Hy. apply H. right. exact Hy.
Qed.

Section TreeReport.

Variable get_bool_param : Request -> string -> bool -> bool.

Lemma per_subsection_values course request :
  unique_locations course ->
  Permutation (itervalues (num_block_types_per_subsection_dict get_bool_param course request))
              (List.map (fun s => size (block_types_of s))
                 (taken_subsections get_bool_param course request)).
Proof.
  intros Hu. unfold num_block_types_per_subsection_dict.
  rewrite itervalues_fmap, subsections_and_units_fold.
  rewrite (subsection_dict_values _ (unique_taken_subsections _ _ _ Hu)).
  change (num_block_types <$>
            List.map (fun s => fold_left add_unit (_get_visible_children s) ∅)
              (taken_subsections get_bool_param course request))
    with (List.map num_block_types
            (List.map (fun s => fold_left add_unit (_get_visible_children s) ∅)
               (taken_subsections get_bool_param course request))).
  rewrite List.map_map.
  erewrite List.map_ext_in; [reflexivity|].
  intros s Hs. apply num_block_types_unit_dict.
  exact (unique_visible_units _ _ _ _ Hu Hs).
Qed.

Lemma per_unit_values course request :
  unique_locations course ->
  Permutation
    (unit_dict ← itervalues (_get_subsections_and_units get_bool_param course request);
     unit_info ← itervalues unit_dict; [num_leaf_blocks unit_info])
    (List.map (fun u => length (_get_leaf_blocks u))
       (taken_units get_bool_param course request)).
Proof.
  intros Hu. rewrite subsections_and_units_fold.
  rewrite (subsection_dict_values _ (unique_taken_subsections _ _ _ Hu)).
  rewrite bind_map_concat. unfold taken_units.
  rewrite <- concat_map_map.
  apply concat_map_Permutation. intros s Hs.
  rewrite bind_singleton_map.
  change (List.map num_leaf_blocks (itervalues (fold_left add_unit (_get_visible_children s) ∅)))
    with (num_leaf_blocks <$> itervalues (fold_left add_unit (_get_visible_children s) ∅)).
  rewrite (unit_dict_values _ (unique_visible_units _ _ _ _ Hu Hs)).
  change (num_leaf_blocks <$> List.map unit_info_of (_get_visible_children s))
    with (List.map num_leaf_blocks (List.map unit_info_of (_get_visible_children s))).
  rewrite List.map_map. reflexivity.
Qed.

End TreeReport.

Lemma units_total_visible_unique
  (get_bool_param : Request -> string -> bool -> bool) (course : XBlock) (request : Request) :
  unique_locations course ->
  units_total_visible (_units_quality get_bool_param course request) =
    length (taken_units get_bool_param course request).
Proof.
  intros Hu. unfold _units_quality. simpl.
  rewrite (Permutation_length (per_unit_values get_bool_param course request Hu)).
  apply List.length_map.
Qed.

(** X8: when the usage keys of the course are unique, the dictionaries lose
    nothing: [subsections.total_visible] is the number of subsections taken
    and [units.total_visible] the number of their visible units,
    [num_with_one_block_type] counts the subsections with exactly one leaf
    block type, and the two statistics are those of the numbers of block
    types per subsection and of leaf blocks per unit. *)
Theorem report_counts_blocks_of_the_tree
  (get_bool_param : Request -> string -> bool -> bool) (course : XBlock) (request : Request) :
  unique_locations course ->
  let subsections_ := taken_subsections get_bool_param course request in
  let units_ := taken_units get_bool_param course request in
  let on_subsections := _subsections_quality get_bool_param course request in
  let on_units := _units_quality get_bool_param course request in
  subsections_total_visible on_subsections = length subsections_
  /\ subsections_num_with_one_block_type on_subsections =
       length (List.filter (fun s => (size (block_types_of s) =? 1)%nat) subsections_)
  /\ stats_equiv (subsections_num_block_types on_subsections)
       (_stats_dict (List.map (fun s => of_nat (size (block_types_of s))) subsections_))
  /\ units_total_visible on_units = length units_
  /\ stats_equiv (units_num_blocks on_units)
       (_stats_dict (List.map (fun u => of_nat (length (_get_leaf_blocks u))) units_)).
Proof.
  intros Hu subsections_ units_ on_subsections on_units.
  pose proof (per_subsection_values get_bool_param course request Hu) as Hsub.
  pose proof (per_unit_values get_bool_param course request Hu) as Hunits.
  fold subsections_ in Hsub. fold units_ in Hunits.
  split; [|split; [|split; [|split]]].
  - unfold on_subsections, _subsections_quality. simpl.
    rewrite <- itervalues_length, (Permutation_length Hsub). apply List.length_map.
  - unfold on_subsections, _subsections_quality. simpl.
    rewrite (filter_length_Permutation _ _ _ Hsub).
    rewrite (filter_map_comm (fun s => size (block_types_of s)) _
               (fun s => (size (block_types_of s) =? 1)%nat)) by reflexivity.
    apply List.length_map.
  - unfold on_subsections, _subsections_quality. simpl.
    apply stats_dict_perm.
    rewrite Hsub.
    change (of_nat <$> List.map (fun s => size (block_types_of s)) subsections_)
      with (List.map of_nat (List.map (fun s => size (block_types_of s)) subsections_)).
    rewrite List.map_map. reflexivity.
  - unfold on_units, _units_quality. simpl.
    rewrite (Permutation_length Hunits). apply List.length_map.
  - unfold on_units, _units_quality. simpl.
    apply stats_dict_perm.
    rewrite Hunits.
    change (of_nat <$> List.map (fun u => length (_get_leaf_blocks u)) units_)
      with (List.map of_nat (List.map (fun u => length (_get_leaf_blocks u)) units_)).
    rewrite List.map_map. reflexivity.
Qed.

Lemma report_counts_blocks_of_the_tree_witness :
  subsections_total_visible
    (_subsections_quality Utils.get_bool_param Samples.course1 Samples.request_all) =
    length (taken_subsections Utils.get_bool_param Samples.course1 Samples.request_all)
  /\ units_total_visible
       (_units_quality Utils.get_bool_param Samples.course1 Samples.request_all) =
       length (taken_units Utils.get_bool_param Samples.course1 Samples.request_all).
Proof.
  destruct (report_counts_blocks_of_the_tree Utils.get_bool_param Samples.course1
              Samples.request_all) as (H1 & _ & _ & H4 & _).
  - unfold unique_locations. apply NoDup_ListNoDup.
    apply (bool_decide_unpack _). vm_compute. exact I.
  - split; [exact H1 | exact H4].
Defined.

(** ** Bounds on the subsection and unit counts *)

Lemma size_list_to_set_le (l : list UsageKey) :
  (size (list_to_set l : gset UsageKey) <= length l)%nat.
Proof.
  induction l as [|x l IH]; [reflexivity|].
  change (list_to_set (x :: l) : gset UsageKey) with ({[x]} ∪ list_to_set l : gset UsageKey).
  rewrite size_union_alt, size_singleton. simpl.
  assert ((size ((list_to_set l : gset UsageKey) ∖ {[x]}) <= size (list_to_set l : gset UsageKey))%nat)
    by (apply subseteq_size; set_solver).
  lia.
Qed.

(** X7: the subsections with one block type are among the subsections
    counted, and these are at most the subsections taken: two subsections
    under the same usage key are counted once. *)
Theorem subsections_counts_bounded
  (get_bool_param : Request -> string -> bool -> bool) (course : XBlock) (request : Request) :
  (subsections_num_with_one_block_type (_subsections_quality get_bool_param course request)
   <= subsections_total_visible (_subsections_quality get_bool_param course request)
   <= length (taken_subsections get_bool_param course request))%nat.
Proof.
  split.
  - unfold _subsections_quality. simpl. rewrite <- itervalues_length.
    apply List.filter_length_le.
  - rewrite subsections_total_visible_dom, dom_subsections_and_units.
    etrans; [apply size_list_to_set_le|]. rewrite List.length_map. reflexivity.
Qed.

(** X9: when the usage keys of the course are unique, [units.total_visible]
    computed with [exclude_graded] set is at most the value computed
    without it. *)
Theorem exclude_graded_only_removes_units
  (get_bool_param : Request -> string -> bool -> bool) (course : XBlock)
  (request_excluding request_including : Request) :
  unique_locations course ->
  get_bool_param request_excluding "exclude_graded" false = true ->
  get_bool_param request_including "exclude_graded" false = false ->
  (units_total_visible (_units_quality get_bool_param course request_excluding)
   <= units_total_visible (_units_quality get_bool_param course request_including))%nat.
Proof.
  intros Hu Hexcl Hincl.
  rewrite !units_total_visible_unique by exact Hu.
  apply sublist_length. unfold taken_units. apply concat_map_sublist_l.
  unfold taken_subsections. apply concat_map_sublist. intros section _.
  unfold visible_subsections_of. rewrite Hexcl, Hincl. apply filter_sublist.
Qed.

Lemma exclude_graded_only_removes_units_witness :
  (units_total_visible
     (_units_quality Utils.get_bool_param Samples.course_graded
        Samples.request_exclude_graded)
   <= units_total_visible
        (_units_quality Utils.get_bool_param Samples.course_graded
           Samples.request_subsections))%nat.
Proof.
  apply (exclude_graded_only_removes_units Utils.get_bool_param Samples.course_graded
           Samples.request_exclude_graded Samples.request_subsections).
  - unfold unique_locations. apply NoDup_ListNoDup.
    apply (bool_decide_unpack _). vm_compute. exact I.
  - reflexivity.
  - reflexivity.
Defined.

(** X10: a report without visible subsections has no visible units: when
    [subsections.total_visible] is zero, [units.total_visible] is zero and
    the statistics of both parts are all [None]. *)
Theorem no_subsections_no_units
  (get_bool_param : Request -> string -> bool -> bool) (course : XBlock) (request : Request) :
  subsections_total_visible (_subsections_quality get_bool_param course request) = 0%nat ->
  _subsections_quality get_bool_param course request =
    {| subsections_total_visible := 0; subsections_num_with_one_block_type := 0;
       subsections_num_block_types := mkStats None None None None None |}
  /\ _units_quality get_bool_param course request =
       {| units_total_visible := 0;
          units_num_blocks := mkStats None None None None None |}.
Proof.
  intros Hzero.
  assert (Hdict : _get_subsections_and_units get_bool_param course request = ∅).
  { apply map_size_empty_inv. rewrite <- Hzero.
    unfold _subsections_quality, num_block_types_per_subsection_dict. simpl.
    rewrite map_size_fmap. reflexivity. }
  unfold _subsections_quality, num_block_types_per_subsection_dict, _units_quality.
  rewrite Hdict. split; reflexivity.
Qed.

Lemma no_subsections_no_units_witness :
  _units_quality Utils.get_bool_param Samples.course_no_video Samples.request_all =
    {| units_total_visible := 0; units_num_blocks := mkStats None None None None None |}.
Proof.
  apply (no_subsections_no_units Utils.get_bool_param Samples.course_no_video
           Samples.request_all).
  reflexivity.
Defined.





(** ** Leaf blocks *)

Lemma leaf_blocks_unfold unit :
  _get_leaf_blocks unit =
    (if (length (_get_children unit) =? 0)%nat then [unit] else []) ++
    List.concat (List.map _get_leaf_blocks (_get_visible_children unit)).
Proof. unfold _get_leaf_blocks. apply traverse_pre_order_unfold. Qed.

Lemma leaf_blocks_in unit b :
  List.In b (_get_leaf_blocks unit) ->
  _get_children b = [] /\ List.In b (all_blocks unit) /\ (b = unit \/ visible b = true).
Proof.
  revert b. induction unit as [u IH] using XBlock_children_ind. intros b Hb.
  rewrite leaf_blocks_unfold in Hb. apply List.in_app_or in Hb. destruct Hb as [Hb|Hb].
  - destruct (length (_get_children u) =? 0)%nat eqn:Hlen; [|destruct Hb].
    destruct Hb as [<-|[]]. apply Nat.eqb_eq in Hlen.
    split; [destruct (_get_children u); [reflexivity | discriminate]|].
    split; [apply all_blocks_self | left; reflexivity].
  - apply List.in_concat in Hb. destruct Hb as (l & Hl & Hb).
    apply List.in_map_iff in Hl. destruct Hl as (c & <- & Hc).
    unfold _get_visible_children, _get_all_children in Hc. simpl in Hc.
    apply List.filter_In in Hc. destruct Hc as [Hc Hvis].
    destruct (IH c Hc b Hb) as (H1 & H2 & H3).
    split; [exact H1|]. split; [exact (all_blocks_child u c b Hc H2)|].
    right. destruct H3 as [->|H3]; assumption.
Qed.

(** X12: the leaf blocks of a unit have no children, lie in the subtree of
    the unit and, the unit apart, are visible; a unit without children is
    its own single leaf block, and a unit whose children are all invisible
    has none. *)
Theorem leaf_blocks_are_leaves (unit : XBlock) :
  (forall b, List.In b (_get_leaf_blocks unit) ->
     _get_children b = [] /\ List.In b (all_blocks unit) /\ (b = unit \/ visible b = true))
  /\ (_get_children unit = [] -> _get_leaf_blocks unit = [unit])
  /\ (_get_children unit <> [] -> _get_visible_children unit = [] ->
      _get_leaf_blocks unit = []).
Proof.
  split; [apply leaf_blocks_in|]. split.
  - intros Hnone. rewrite leaf_blocks_unfold.
    unfold _get_visible_children, _get_all_children. rewrite Hnone. reflexivity.
  - intros Hsome Hvis. rewrite leaf_blocks_unfold, Hvis.
    destruct (_get_children unit); [congruence | reflexivity].
Qed.

Lemma leaf_blocks_are_leaves_witness :
  _get_leaf_blocks (Samples.blk "vertical" "u0" None false)
    = [Samples.blk "vertical" "u0" None false]
  /\ _get_leaf_blocks Samples.unit_staff_child = [].
Proof.
  split.
  - apply (leaf_blocks_are_leaves (Samples.blk "vertical" "u0" None false)). reflexivity.
  - apply (leaf_blocks_are_leaves Samples.unit_staff_child); [discriminate | reflexivity].
Defined.

(** ** Videos *)

(** X13: the video blocks that carry a video id are among the video blocks
    of the course, and every block counted has the block type "video". *)
Theorem videos_with_val_id_bounded (env : Env) (course : XBlock) :
  (videos_num_with_val_id (_videos_quality env course)
   <= videos_total_number (_videos_quality env course))%nat
  /\ forall b, List.In b (get_items env (course_id course) "video") ->
       block_type (location b) = "video"
       /\ exists stored, courses env (course_id course) = Some stored
                         /\ List.In b (all_blocks stored).
Proof.
  split.
  - unfold _videos_quality. simpl. apply List.filter_length_le.
  - intros b Hb. unfold get_items in Hb.
    destruct (courses env (course_id course)) as [stored|]; [|destruct Hb].
    apply List.filter_In in Hb. destruct Hb as [Hb Htype].
    apply bool_decide_eq_true in Htype. split; [exact Htype|].
    exists stored. split; [reflexivity | exact Hb].
Qed.

(** ** The request *)

(** X14: a course id that does not parse ends the request with
    [InvalidKeyError] before the access check: whoever asks and whatever
    the parameters, no store is accessed and no response is built. *)
Theorem invalid_course_id_raises
  (get_bool_param : Request -> string -> bool -> bool) (env : Env)
  (request : Request) (course_id_ : string) :
  from_string env course_id_ = None ->
  get get_bool_param env request course_id_ = ([], inl InvalidKeyError).
Proof.
  intros Hkey. unfold get. rewrite Hkey. reflexivity.
Qed.

Lemma invalid_course_id_raises_witness :
  get Utils.get_bool_param
    (mkEnv (fun _ => None) Samples.access (fun _ => Some Samples.course1) (fun _ => []))
    Samples.request_learner "not a course id" = ([], inl InvalidKeyError).
Proof.
  apply (invalid_course_id_raises Utils.get_bool_param
           (mkEnv (fun _ => None) Samples.access (fun _ => Some Samples.course1)
              (fun _ => []))
           Samples.request_learner "not a course id").
  reflexivity.
Defined.

(** X15: the course is loaded as deep as the report needs: in a successful
    response, the depth passed to the course load is the full subtree when
    the response holds the units or the subsections part, one level when of
    these three it holds only the sections part, and zero when it holds
    none of them; and [is_self_paced] is that of the course. *)
Theorem depth_matches_report
  (get_bool_param : Request -> string -> bool -> bool) (env : Env)
  (request : Request) (course_id_ : string) (course_key : CourseKey) (course : XBlock) :
  from_string env course_id_ = Some course_key ->
  has_course_author_access env (user request) course_key = true ->
  courses env course_key = Some course ->
  exists log report,
    get get_bool_param env request course_id_ =
      (Modulestore :: BulkOperations course_key
         :: GetCourse course_key
              (depth_policy (bool_decide (units report <> None))
                            (bool_decide (subsections report <> None))
                            (bool_decide (sections report <> None))) :: log,
       inr (OkResponse report))
    /\ is_self_paced report = self_paced course
    /\ Forall (fun e => match e with GetCourse _ _ => False | _ => True end) log.
Proof.
  intros Hkey Hacc Hcourse. unfold get. rewrite Hkey. cbn. rewrite Hacc. cbn.
  rewrite Hcourse. unfold update_if, _required_course_depth.
  destruct (get_bool_param request "sections" _),
           (get_bool_param request "subsections" _),
           (get_bool_param request "units" _),
           (get_bool_param request "videos" _); cbn;
    match goal with
    | |- exists log report, (_ :: _ :: _ :: ?l, inr (OkResponse ?r)) = _ /\ _ =>
        exists l, r
    end;
    (split; [reflexivity|]); (split; [reflexivity|]); repeat constructor.
Qed.

Lemma depth_matches_report_witness :
  exists log report,
    get Utils.get_bool_param Samples.env1 Samples.request_subsections "course-v1:edX+Q+1" =
      (Modulestore :: BulkOperations "course-v1:edX+Q+1"
         :: GetCourse "course-v1:edX+Q+1"
              (depth_policy (bool_decide (units report <> None))
                            (bool_decide (subsections report <> None))
                            (bool_decide (sections report <> None))) :: log,
       inr (OkResponse report))
    /\ is_self_paced report = self_paced Samples.course1
    /\ Forall (fun e => match e with GetCourse _ _ => False | _ => True end) log.
Proof.
  apply (depth_matches_report Utils.get_bool_param Samples.env1 Samples.request_subsections
           "course-v1:edX+Q+1" "course-v1:edX+Q+1" Samples.course1); reflexivity.
Defined.
